(** * Bank statement standardization engine: a shallow embedding

    The development follows [bank_transformer.py]: the cell classifier, the
    format registry and detector, the account-information extractor, the
    transaction extractor, the standardizer and the output projector of class
    [BankStatementTransformer], each translated method by method.  Of the
    file reader the choice of a sheet reader by the suffix of the path is
    embedded; what the sheet readers deliver is the loaded grid, from which
    the transform starts.  Of [app.py] the upload filter and the options of
    a transform request are embedded.

    Modelling choices.
    - A cell is [None], an [int], a [float], a [str] or a [datetime], the
      values the sheet readers deliver for empty, numeric, text and date
      cells.
    - A Python [str] is a Rocq [string] holding its UTF-8 bytes.  Case
      conversion, digits, letters and word characters are the ASCII ones; a
      byte of a multi-byte character is an ordinary non-digit, non-letter
      byte.  Substring tests on UTF-8 bytes agree with tests on code points.
    - A Python [float] is a primitive binary64 float.  Conversion from text
      and from integers rounds to nearest, ties to even, as CPython does;
      [format_2f] and [repr_float] print the exact binary value.
    - A Python [int] is a [Z]; converting one beyond the binary64 range to a
      float raises [OverflowError], as in CPython.
    - An exception is a value of [exn]; a method that can raise returns a
      [result].
    - A [dict] is the list of its items in insertion order.
    - [pandas.to_datetime] is a parameter of the standardizer (its parsing
      rules are outside the repository).  [pandas.Timedelta] is modelled by
      its signed 64-bit nanosecond range, the day count of a float being
      taken exactly; [strftime] prints years with four digits.
    - [pandas.DataFrame] is modelled by its columns and rows; selecting a
      missing column raises [KeyError]. *)

From Stdlib Require Import ZArith List String Ascii Bool Lia Permutation.
From Stdlib Require Import Floats DecimalString.
Import ListNotations.

Open Scope string_scope.
Open Scope Z_scope.

(** ** Exceptions and fallible computations *)

Inductive exn : Type :=
| ValueError (msg : string)
| IndexError (msg : string)
| OverflowError (msg : string)
| TypeError (msg : string)
| KeyError (msg : string).

(** [str(e)] for the exceptions above ([KeyError] prints the repr of its
    argument, which adds quotes). *)
Definition str_exn (e : exn) : string :=
  match e with
  | ValueError m | IndexError m | OverflowError m | TypeError m => m
  | KeyError m => "'" ++ m ++ "'"
  end.

Inductive result (A : Type) : Type :=
| Ok (a : A)
| Raise (e : exn).

Arguments Ok {A} a.
Arguments Raise {A} e.

Definition bind {A B : Type} (r : result A) (k : A -> result B) : result B :=
  match r with
  | Ok a => k a
  | Raise e => Raise e
  end.

Definition fmap {A B : Type} (f : A -> B) (r : result A) : result B :=
  bind r (fun a => Ok (f a)).

Notation "x <- r ;; k" := (bind r (fun x => k))
  (at level 61, r at next level, right associativity).

(** ** Text *)

Module Text.

Definition code (c : ascii) : nat := nat_of_ascii c.

Definition between (lo hi : nat) (c : ascii) : bool :=
  (lo <=? code c)%nat && (code c <=? hi)%nat.

Definition is_digit : ascii -> bool := between 48 57.
Definition is_upper : ascii -> bool := between 65 90.
Definition is_lower : ascii -> bool := between 97 122.

(** ASCII members of [\s]: tab, newline, vertical tab, form feed, carriage
    return, the four separators 0x1c-0x1f and the space. *)
Definition is_space (c : ascii) : bool :=
  between 9 13 c || between 28 31 c || (code c =? 32)%nat.

(** ASCII members of [\w]. *)
Definition is_word (c : ascii) : bool :=
  is_digit c || is_upper c || is_lower c || (code c =? 95)%nat.

Definition lower_char (c : ascii) : ascii :=
  if is_upper c then ascii_of_nat (code c + 32) else c.

(** [s.lower()] *)
Fixpoint lower (s : string) : string :=
  match s with
  | EmptyString => EmptyString
  | String c t => String (lower_char c) (lower t)
  end.

(** [needle in hay] *)
Fixpoint contains (needle hay : string) : bool :=
  prefix needle hay ||
  match hay with
  | EmptyString => false
  | String _ t => contains needle t
  end.

(** [sep.join(parts)] *)
Definition join (sep : string) (parts : list string) : string :=
  String.concat sep parts.

(** [str(n)] for an integer. *)
Definition str_of_Z (n : Z) : string :=
  NilZero.string_of_int (Z.to_int n).

Fixpoint repeat_char (c : ascii) (n : nat) : string :=
  match n with
  | O => EmptyString
  | S k => String c (repeat_char c k)
  end.

(** A non-negative integer printed with at least [w] digits. *)
Definition zero_pad (w : nat) (n : Z) : string :=
  let s := str_of_Z n in
  repeat_char "0" (w - String.length s) ++ s.

(** Length of the first of [pats] that is a prefix of [s]. *)
Fixpoint prefix_len (pats : list string) (s : string) : option nat :=
  match pats with
  | [] => None
  | p :: rest => if prefix p s then Some (String.length p) else prefix_len rest s
  end.

(** [re.sub('[...]', '', s)] for a character class whose one-byte members
    satisfy [single] and whose multi-byte members are [multi]: [skip]
    counts the bytes of a matched member still to be dropped. *)
Fixpoint remove_class (single : ascii -> bool) (multi : list string)
         (skip : nat) (s : string) : string :=
  match s with
  | EmptyString => EmptyString
  | String c t =>
      match skip with
      | S k => remove_class single multi k t
      | O =>
          if single c then remove_class single multi 0 t
          else match prefix_len multi s with
               | Some n => remove_class single multi (n - 1) t
               | None => String c (remove_class single multi 0 t)
               end
      end
  end.

Definition bytes (l : list nat) : string :=
  string_of_list_ascii (map ascii_of_nat l).

(** The members of [\s] outside ASCII, as UTF-8: U+0085, U+00A0, U+1680,
    U+2000..U+200A, U+2028, U+2029, U+202F, U+205F, U+3000. *)
Definition unicode_spaces : list string :=
  map bytes
    [ [194; 133]; [194; 160]; [225; 154; 128];
      [226; 128; 128]; [226; 128; 129]; [226; 128; 130]; [226; 128; 131];
      [226; 128; 132]; [226; 128; 133]; [226; 128; 134]; [226; 128; 135];
      [226; 128; 136]; [226; 128; 137]; [226; 128; 138];
      [226; 128; 168]; [226; 128; 169]; [226; 128; 175];
      [226; 129; 159]; [227; 128; 128] ]%nat.

End Text.

(** ** Regular expressions

    The patterns of the source are sequences of bounded repetitions of a
    character class, with word-boundary and end-of-string assertions.  The
    matcher is the backtracking one of [re]: a repetition is greedy and gives
    characters back one at a time. *)

Module Re.

Inductive item : Type :=
| Cls (p : ascii -> bool) (lo : nat) (hi : option nat)
| WordB
| EndS.

(** Longest prefix of [s] made of at most [hi] characters satisfying [p],
    returned reversed, with the rest. *)
Fixpoint take_while (p : ascii -> bool) (hi : option nat) (s : string)
         (acc : list ascii) : list ascii * string :=
  match s with
  | EmptyString => (acc, s)
  | String c t =>
      match hi with
      | Some O => (acc, s)
      | _ =>
          if p c then take_while p (option_map Nat.pred hi) t (c :: acc)
          else (acc, s)
      end
  end.

Definition last_char (prev : option ascii) (taken : list ascii) : option ascii :=
  match taken with
  | c :: _ => Some c
  | [] => prev
  end.

Definition word_opt (c : option ascii) : bool :=
  match c with
  | Some a => Text.is_word a
  | None => false
  end.

Definition head_char (s : string) : option ascii :=
  match s with
  | String c _ => Some c
  | EmptyString => None
  end.

(** [$]: the end of the text, or just before a final newline. *)
Definition at_end (s : string) : bool :=
  match s with
  | EmptyString => true
  | String c EmptyString => (Text.code c =? 10)%nat
  | _ => false
  end.

(** [match_here items prev s]: match [items] at the start of [s], [prev]
    being the character before it; the matched text is returned reversed
    (most recent character first) with the remaining text.  [give_back]
    tries a repetition with the characters [taken] (reversed), then with one
    fewer, down to [lo]. *)
Fixpoint match_here (items : list item) (prev : option ascii) (s : string)
         (matched : list ascii) : option (list ascii * string) :=
  match items with
  | [] => Some (matched, s)
  | WordB :: rest =>
      if xorb (word_opt prev) (word_opt (head_char s))
      then match_here rest prev s matched
      else None
  | EndS :: rest =>
      if at_end s then match_here rest prev s matched else None
  | Cls p lo hi :: rest =>
      let '(taken, s') := take_while p hi s [] in
      (fix give_back (taken : list ascii) (s' : string) {struct taken} :=
         if (List.length taken <? lo)%nat then None
         else
           match match_here rest (last_char prev taken) s' (taken ++ matched)%list with
           | Some r => Some r
           | None =>
               match taken with
               | [] => None
               | c :: taken' => give_back taken' (String c s')
               end
           end) taken s'
  end.

Definition text_of (rev_chars : list ascii) : string :=
  string_of_list_ascii (rev rev_chars).

(** [re.match(pattern, s)]: the matched text, if the pattern matches at the
    start. *)
Definition re_match (items : list item) (s : string) : option string :=
  option_map (fun r => text_of (fst r)) (match_here items None s []).

(** [re.search(pattern, s)]: the text of the leftmost match. *)
Fixpoint search_from (items : list item) (prev : option ascii) (s : string)
  : option string :=
  match match_here items prev s [] with
  | Some r => Some (text_of (fst r))
  | None =>
      match s with
      | EmptyString => None
      | String c t => search_from items (Some c) t
      end
  end.

Definition re_search (items : list item) (s : string) : option string :=
  search_from items None s.

End Re.

(** ** Floats

    Python's [float] is binary64.  [nearest] rounds a positive rational to the
    nearest float, ties to even; conversions from integers and from text go
    through it, and the printers read the exact value back with [Prim2SF]. *)

Module PyFloat.

Definition round_half_even (n d : Z) : Z :=
  let q := n / d in
  match 2 * (n mod d) ?= d with
  | Lt => q
  | Gt => q + 1
  | Eq => if Z.even q then q else q + 1
  end.

(** The fraction [(n / d) / 2^e]. *)
Definition scale2 (n d e : Z) : Z * Z :=
  if 0 <=? e then (n, d * 2 ^ e) else (n * 2 ^ (- e), d).

(** The fraction [(n / d) / 10^k]. *)
Definition scale10 (n d k : Z) : Z * Z :=
  if 0 <=? k then (n, d * 10 ^ k) else (n * 10 ^ (- k), d).

(** Mantissa and binary exponent of the float nearest to [n / d], for
    [0 < n] and [0 < d]: the value is [q * 2^e] with [q <= 2^53] and
    [-1074 <= e]. *)
Definition nearest_parts (n d : Z) : Z * Z :=
  let e1 := Z.log2 n - Z.log2 d - 53 in
  let '(n1, d1) := scale2 n d e1 in
  let e2 := if 2 ^ 53 <=? n1 / d1 then e1 + 1 else e1 in
  let e := Z.max e2 (-1074) in
  let '(n2, d2) := scale2 n d e in
  (round_half_even n2 d2, e).

(** [None] when [n / d] rounds beyond the largest finite float. *)
Definition nearest (n d : Z) : option float :=
  let '(q, e) := nearest_parts n d in
  if (971 <? e) || ((e =? 971) && (q =? 2 ^ 53)) then None
  else Some (Z.ldexp (PrimFloat.of_uint63 (Uint63.of_Z q)) e).

Definition with_sign (neg : bool) (x : float) : float :=
  if neg then PrimFloat.opp x else x.

(** [float(n)] for an integer [n]. *)
Definition float_of_Z (n : Z) : result float :=
  if n =? 0 then Ok PrimFloat.zero
  else match nearest (Z.abs n) 1 with
       | Some x => Ok (with_sign (n <? 0) x)
       | None => Raise (OverflowError "int too large to convert to float")
       end.

(** The float nearest to [m * 10^k] for [0 <= m]; an overflow is infinity,
    as when text is converted.  The two guards keep huge exponents from
    being expanded. *)
Definition float_of_decimal (m k : Z) : float :=
  if m =? 0 then PrimFloat.zero
  else if 310 <? k then PrimFloat.infinity
  else if k + Z.log2 m <? -1100 then PrimFloat.zero
  else
    let '(n, d) := scale10 m 1 (- k) in
    match nearest n d with
    | Some x => x
    | None => PrimFloat.infinity
    end.

(** *** Text to float: the grammar of [float(str)] *)

Definition digit_val (c : ascii) : Z := Z.of_nat (Text.code c) - 48.

(** [(["_"] digit)*]: accumulated value, number of digits read, rest. *)
Fixpoint digits_tail (s : string) (acc cnt : Z) : Z * Z * string :=
  match s with
  | String c t =>
      if Text.is_digit c then digits_tail t (10 * acc + digit_val c) (cnt + 1)
      else if (Text.code c =? 95)%nat then
        match t with
        | String c' t' =>
            if Text.is_digit c'
            then digits_tail t' (10 * acc + digit_val c') (cnt + 1)
            else (acc, cnt, s)
        | EmptyString => (acc, cnt, s)
        end
      else (acc, cnt, s)
  | EmptyString => (acc, cnt, s)
  end.

(** [digitpart ::= digit (["_"] digit)*], continuing the value [acc]. *)
Definition digitpart (s : string) (acc : Z) : option (Z * Z * string) :=
  match s with
  | String c t =>
      if Text.is_digit c then Some (digits_tail t (10 * acc + digit_val c) 1)
      else None
  | EmptyString => None
  end.

Definition is_char (n : nat) (c : ascii) : bool := (Text.code c =? n)%nat.

(** [[sign]]: whether the sign is minus, and the rest. *)
Definition sign_of (s : string) : bool * string :=
  match s with
  | String c t =>
      if is_char 45 c then (true, t)
      else if is_char 43 c then (false, t)
      else (false, s)
  | EmptyString => (false, s)
  end.

(** [exponent ::= ("e" | "E") [sign] digitpart], to the end of the text;
    no exponent is exponent 0. *)
Definition exponent (s : string) : option Z :=
  match s with
  | EmptyString => Some 0
  | String c t =>
      if is_char 101 c || is_char 69 c then
        let '(neg, t') := sign_of t in
        match digitpart t' 0 with
        | Some (v, _, EmptyString) => Some (if neg then - v else v)
        | _ => None
        end
      else None
  end.

(** [number ::= [digitpart] "." digitpart | digitpart ["."]]: the digits
    read as one integer, the number of fraction digits, the rest. *)
Definition number (s : string) : option (Z * Z * string) :=
  match digitpart s 0 with
  | Some (ip, _, String c t) =>
      if is_char 46 c then
        match digitpart t ip with
        | Some r => Some r
        | None => Some (ip, 0, t)
        end
      else Some (ip, 0, String c t)
  | Some (ip, _, EmptyString) => Some (ip, 0, EmptyString)
  | None =>
      match s with
      | String c t => if is_char 46 c then digitpart t 0 else None
      | EmptyString => None
      end
  end.

Definition floatnumber (s : string) : option float :=
  match number s with
  | Some (m, frac, rest) =>
      match exponent rest with
      | Some e => Some (float_of_decimal m (e - frac))
      | None => None
      end
  | None => None
  end.

Definition absfloatvalue (s : string) : option float :=
  let l := Text.lower s in
  if String.eqb l "inf" || String.eqb l "infinity" then Some PrimFloat.infinity
  else if String.eqb l "nan" then Some PrimFloat.nan
  else floatnumber s.

(** [float(s)] for text [s] without surrounding white space; [None] is
    [ValueError]. *)
Definition float_of_str (s : string) : option float :=
  let '(neg, t) := sign_of s in
  option_map (with_sign neg) (absfloatvalue t).

(** *** Float to text *)

(** ["{:.2f}"] of a non-negative number of hundredths. *)
Definition hundredths (neg : bool) (n : Z) : string :=
  (if neg then "-" else "") ++ Text.str_of_Z (n / 100) ++ "." ++ Text.zero_pad 2 (n mod 100).

(** [f"{x:.2f}"] *)
Definition format_2f (x : float) : string :=
  match Prim2SF x with
  | S754_nan => "nan"
  | S754_infinity neg => if neg then "-inf" else "inf"
  | S754_zero neg => hundredths neg 0
  | S754_finite neg m e =>
      let '(n, d) := scale2 (100 * Z.pos m) 1 (- e) in
      hundredths neg (round_half_even n d)
  end.

(** [floor(log10(n / d))] for a positive fraction. *)
Fixpoint log10_int (fuel : nat) (q : Z) : Z :=
  match fuel with
  | O => 0
  | S f => if q <? 10 then 0 else 1 + log10_int f (q / 10)
  end.

Fixpoint log10_frac (fuel : nat) (n d j : Z) : Z :=
  match fuel with
  | O => - j
  | S f => if d <=? n * 10 ^ j then - j else log10_frac f n d (j + 1)
  end.

Definition log10_floor (n d : Z) : Z :=
  if d <=? n then log10_int 400 (n / d) else log10_frac 400 n d 1.

(** [n / d] rounded to [p] significant digits: the digits as an integer
    and the power of ten that scales them. *)
Definition round_digits (n d p : Z) : Z * Z :=
  let k := log10_floor n d - (p - 1) in
  let '(n', d') := scale10 n d k in
  let q := round_half_even n' d' in
  if q =? 10 ^ p then (10 ^ (p - 1), k + 1) else (q, k).

(** The shortest digits that read back as [n / d], whose float is [x]. *)
Fixpoint shortest (fuel : nat) (p : Z) (x : float) (n d : Z) : Z * Z :=
  let '(q, k) := round_digits n d p in
  match fuel with
  | O => (q, k)
  | S f =>
      if PrimFloat.eqb (float_of_decimal q k) x then (q, k)
      else shortest f (p + 1) x n d
  end.

(** Layout of [repr]: digits [ds], the decimal point after [decpt] of them. *)
Definition layout (ds : string) (decpt : Z) : string :=
  let p := Z.of_nat (String.length ds) in
  if (decpt <=? -4) || (16 <? decpt) then
    let e := decpt - 1 in
    let mant := match ds with
                | String c EmptyString => ds
                | String c t => String c ("." ++ t)
                | EmptyString => ds
                end in
    mant ++ "e" ++ (if e <? 0 then "-" else "+") ++ Text.zero_pad 2 (Z.abs e)
  else if decpt <=? 0 then
    "0." ++ Text.repeat_char "0" (Z.to_nat (- decpt)) ++ ds
  else if p <=? decpt then
    ds ++ Text.repeat_char "0" (Z.to_nat (decpt - p)) ++ ".0"
  else
    substring 0 (Z.to_nat decpt) ds ++ "." ++
    substring (Z.to_nat decpt) (Z.to_nat (p - decpt)) ds.

(** [str(x)], which is [repr(x)]. *)
Definition repr_float (x : float) : string :=
  match Prim2SF x with
  | S754_nan => "nan"
  | S754_infinity neg => if neg then "-inf" else "inf"
  | S754_zero neg => if neg then "-0.0" else "0.0"
  | S754_finite neg m e =>
      let '(n, d) := scale2 (Z.pos m) 1 (- e) in
      let '(q, k) := shortest 17 1 (PrimFloat.abs x) n d in
      let ds := Text.str_of_Z q in
      (if neg then "-" else "") ++ layout ds (k + Z.of_nat (String.length ds))
  end.

(** The exact value of a finite float as a fraction; [None] for infinities
    and nan. *)
Definition exact (x : float) : option (Z * Z) :=
  match Prim2SF x with
  | S754_zero _ => Some (0, 1)
  | S754_finite neg m e =>
      let '(n, d) := scale2 (Z.pos m) 1 (- e) in
      Some (if neg then - n else n, d)
  | _ => None
  end.

End PyFloat.

(** ** Cells and dictionaries *)

(** A [datetime.datetime] value. *)
Record datetime : Type := mk_datetime {
  year : Z; month : Z; day : Z;
  hour : Z; minute : Z; second : Z; microsecond : Z
}.

(** A cell of the loaded sheet: [None], an [int], a [float], a [str] or a
    [datetime]. *)
Inductive Cell : Type :=
| CNone
| CInt (n : Z)
| CFloat (x : float)
| CStr (s : string)
| CDate (d : datetime).

(** [cell is not None] *)
Definition not_none (c : Cell) : bool :=
  match c with
  | CNone => false
  | _ => true
  end.

(** [bool(cell)] *)
Definition truthy (c : Cell) : bool :=
  match c with
  | CNone => false
  | CInt n => negb (n =? 0)
  | CFloat x => negb (PrimFloat.eqb x PrimFloat.zero)
  | CStr s => negb (String.eqb s "")
  | CDate _ => true
  end.

(** [str(d)] for a datetime: ISO format with a space separator. *)
Definition str_datetime (d : datetime) : string :=
  Text.zero_pad 4 (year d) ++ "-" ++ Text.zero_pad 2 (month d) ++ "-" ++
  Text.zero_pad 2 (day d) ++ " " ++ Text.zero_pad 2 (hour d) ++ ":" ++
  Text.zero_pad 2 (minute d) ++ ":" ++ Text.zero_pad 2 (second d) ++
  (if microsecond d =? 0 then "" else "." ++ Text.zero_pad 6 (microsecond d)).

(** [str(cell)] *)
Definition str_cell (c : Cell) : string :=
  match c with
  | CNone => "None"
  | CInt n => Text.str_of_Z n
  | CFloat x => PyFloat.repr_float x
  | CStr s => s
  | CDate d => str_datetime d
  end.

(** A Python [dict] with text keys: the items in insertion order, each key
    once. *)
Definition dict (V : Type) : Type := list (string * V).

Fixpoint dget {V : Type} (k : string) (d : dict V) : option V :=
  match d with
  | [] => None
  | (k', v) :: t => if String.eqb k' k then Some v else dget k t
  end.

(** [d[k] = v]: a present key keeps its place. *)
Fixpoint dset {V : Type} (k : string) (v : V) (d : dict V) : dict V :=
  match d with
  | [] => [(k, v)]
  | (k', v') :: t =>
      if String.eqb k' k then (k', v) :: t else (k', v') :: dset k v t
  end.

(** [k in d] *)
Definition dmem {V : Type} (k : string) (d : dict V) : bool :=
  match dget k d with
  | Some _ => true
  | None => false
  end.

(** [l[i]] for a Python list, a negative index counting from the end. *)
Definition py_get {A : Type} (l : list A) (i : Z) : option A :=
  let n := Z.of_nat (List.length l) in
  if 0 <=? i then nth_error l (Z.to_nat i)
  else if - n <=? i then nth_error l (Z.to_nat (n + i))
  else None.

Definition py_index {A : Type} (l : list A) (i : Z) : result A :=
  match py_get l i with
  | Some a => Ok a
  | None => Raise (IndexError "list index out of range")
  end.

(** [range(lo, lo + n)] *)
Fixpoint zrange (lo : Z) (n : nat) : list Z :=
  match n with
  | O => []
  | S k => lo :: zrange (lo + 1) k
  end.

(** [[f(x) for x in l]] where [f] can raise. *)
Fixpoint map_result {A B : Type} (f : A -> result B) (l : list A) : result (list B) :=
  match l with
  | [] => Ok []
  | a :: t => b <- f a ;; bs <- map_result f t ;; Ok (b :: bs)
  end.

Definition Grid : Type := list (list Cell).

(** ** The transformer: constants of [__init__] *)

Definition standard_headers : list string :=
  ["Tran Date"; "Value Date"; "Ref. No"; "Transaction Details";
   "Debit"; "Credit"; "Balance"].

Definition slash_or_dash (c : ascii) : bool :=
  PyFloat.is_char 47 c || PyFloat.is_char 45 c.

Definition digits (lo hi : nat) : Re.item := Re.Cls Text.is_digit lo (Some hi).
Definition separator : Re.item := Re.Cls slash_or_dash 1 (Some 1%nat).

(** The three anchored date shapes; [re.match] anchors the start. *)
Definition date_patterns : list (list Re.item) :=
  [ [digits 1 2; separator; digits 1 2; separator; digits 4 4; Re.EndS];
    [digits 4 4; separator; digits 1 2; separator; digits 1 2; Re.EndS];
    [digits 1 2; separator; digits 1 2; separator; digits 2 2; Re.EndS] ].

(** The header of a profile: a row index, or the text ['auto-detect']. *)
Inductive HeaderRow : Type :=
| HInt (i : Z)
| HText (s : string).

(** A format profile, as stored in the registry and as returned by
    detection, where [key] has been added. *)
Record FormatInfo : Type := mk_format {
  key : option string;
  name : string;
  identifiers : list string;
  header_row : HeaderRow;
  account_info_rows : option (list nat);
  mapping : dict string
}.

Definition with_key (k : string) (f : FormatInfo) : FormatInfo :=
  mk_format (Some k) (name f) (identifiers f) (header_row f)
            (account_info_rows f) (mapping f).

(** [_initialize_bank_formats] *)
Definition FCMB_FORMAT_1 : FormatInfo :=
  mk_format None "FCMB Statement Format 1"
    ["1021040520"; "STATEMENT OF ACCOUNT"]
    (HInt 16)
    (Some [3; 4; 5; 6; 7; 8; 12; 13; 14]%nat)
    [ ("Transaction Date", "Tran Date");
      ("Description", "Transaction Details");
      ("Value Date", "Value Date");
      ("Withdrawls", "Debit");
      ("Deposits", "Credit");
      ("Balance", "Balance");
      ("Instrument Code", "Ref. No") ].

Definition GTB_ODS_FORMAT : FormatInfo :=
  mk_format None "GTB ODS Statement Format"
    ["TRA DATE"; "REMARKS"; "NUBAN"]
    (HInt 2)
    (Some [0; 1]%nat)
    [ ("TRA DATE", "Tran Date");
      ("REMARKS", "Transaction Details");
      ("NUBAN", "Ref. No");
      ("DEBIT", "Debit");
      ("CREDIT", "Credit");
      ("CRNT BAL", "Balance") ].

Definition GENERIC : FormatInfo :=
  mk_format None "Generic Bank Format" [] (HText "auto-detect") None [].

Definition bank_formats : dict FormatInfo :=
  [ ("FCMB_FORMAT_1", FCMB_FORMAT_1);
    ("GTB_ODS_FORMAT", GTB_ODS_FORMAT);
    ("GENERIC", GENERIC) ].

(** ** Cell classifier *)

(** The class [[₦$£€,\s()]] of [_parse_amount] and [_is_amount]. *)
Definition amount_noise_byte (c : ascii) : bool :=
  PyFloat.is_char 36 c || PyFloat.is_char 44 c || Text.is_space c ||
  PyFloat.is_char 40 c || PyFloat.is_char 41 c.

Definition amount_noise_multi : list string :=
  ("₦" :: "£" :: "€" :: Text.unicode_spaces)%list.

Definition clean_amount (s : string) : string :=
  Text.remove_class amount_noise_byte amount_noise_multi 0 s.

(** [_parse_amount] *)
Definition _parse_amount (value : Cell) : result float :=
  match value with
  | CInt n => PyFloat.float_of_Z n
  | CFloat x => Ok x
  | CStr s =>
      match PyFloat.float_of_str (clean_amount s) with
      | Some x => Ok x
      | None => Ok PrimFloat.zero
      end
  | _ => Ok PrimFloat.zero
  end.

(** [_is_date] *)
Definition _is_date (value : Cell) : bool :=
  match value with
  | CInt n => (1000 <? n) && (n <? 100000)
  | CFloat x =>
      PrimFloat.ltb 1000%float x &&
      PrimFloat.ltb x 100000%float
  | CStr s =>
      existsb (fun pattern =>
                 match Re.re_match pattern s with
                 | Some _ => true
                 | None => false
                 end) date_patterns
  | CDate _ => true
  | CNone => false
  end.

(** [_is_amount] *)
Definition _is_amount (value : Cell) : bool :=
  match value with
  | CInt n => negb (n =? 0)
  | CFloat x => negb (PrimFloat.eqb x PrimFloat.zero)
  | CStr s =>
      match PyFloat.float_of_str (clean_amount s) with
      | Some x => negb (PrimFloat.eqb x PrimFloat.zero)
      | None => false
      end
  | _ => false
  end.

(** ** Format detector *)

(** The search text of [_detect_format]: the cells of the first 20 rows that
    are not [None], as text, joined by single spaces and lower-cased. *)
Definition search_text (raw_data : Grid) : string :=
  Text.lower
    (Text.join " "
       (flat_map (fun row => map str_cell (filter not_none row))
                 (firstn 20 raw_data))).

(** [all(identifier.lower() in search_text for identifier in ...)] *)
Definition identifiers_found (f : FormatInfo) (text : string) : bool :=
  forallb (fun identifier => Text.contains (Text.lower identifier) text)
          (identifiers f).

(** The loop over [self.bank_formats.items()]. *)
Fixpoint first_match (formats : dict FormatInfo) (text : string) : option FormatInfo :=
  match formats with
  | [] => None
  | (format_key, format_info) :: rest =>
      if String.eqb format_key "GENERIC" then first_match rest text
      else if identifiers_found format_info text
           then Some (with_key format_key format_info)
           else first_match rest text
  end.

Definition common_headers : list string :=
  ["date"; "transaction"; "description"; "narration"; "remarks";
   "debit"; "credit"; "withdrawal"; "deposit"; "balance"; "amount"].

Definition any_in (words : list string) (text : string) : bool :=
  existsb (fun w => Text.contains w text) words.

(** A cell counted by [header_count]: non-empty text holding one of the
    common header words. *)
Definition is_header_cell (c : Cell) : bool :=
  match c with
  | CStr s => negb (String.eqb s "") && any_in common_headers (Text.lower s)
  | _ => false
  end.

Definition header_count (row : list Cell) : nat :=
  List.length (filter is_header_cell row).

(** One step of the "create mapping" loop. *)
Definition map_header_cell (mapping : dict string) (c : Cell) : dict string :=
  match c with
  | CStr s =>
      if String.eqb s "" then mapping
      else
        let cell_lower := Text.lower s in
        let has w := Text.contains w cell_lower in
        if has "date" && negb (has "value") then dset s "Tran Date" mapping
        else if has "value" && has "date" then dset s "Value Date" mapping
        else if any_in ["description"; "narration"; "remarks"] cell_lower
             then dset s "Transaction Details" mapping
        else if any_in ["debit"; "withdrawal"] cell_lower then dset s "Debit" mapping
        else if any_in ["credit"; "deposit"] cell_lower then dset s "Credit" mapping
        else if has "balance" then dset s "Balance" mapping
        else if any_in ["reference"; "ref"] cell_lower then dset s "Ref. No" mapping
        else mapping
  | _ => mapping
  end.

(** The header search over [enumerate(raw_data[:25])]: the index of the first
    row with at least four header cells and the mapping made from it, or
    [-1] and the empty mapping. *)
Fixpoint find_header (rows : Grid) (i : Z) : Z * dict string :=
  match rows with
  | [] => (-1, [])
  | row :: rest =>
      match row with
      | [] => find_header rest (i + 1)
      | _ =>
          if (4 <=? header_count row)%nat
          then (i, fold_left map_header_cell row [])
          else find_header rest (i + 1)
      end
  end.

(** [_detect_generic_format] *)
Definition _detect_generic_format (raw_data : Grid) : FormatInfo :=
  let '(header_row, mapping) := find_header (firstn 25 raw_data) 0 in
  mk_format (Some "GENERIC") "Generic Bank Format" [] (HInt header_row)
            (Some (seq 0 5)) mapping.

(** [_detect_format] *)
Definition _detect_format (raw_data : Grid) : FormatInfo :=
  match first_match bank_formats (search_text raw_data) with
  | Some format_info => format_info
  | None => _detect_generic_format raw_data
  end.

(** ** Account information extractor *)

(** The dictionary [account_info]; a key that is absent is [None]. *)
Record AccountInfo : Type := mk_account {
  account_number : option string;
  account_name : option string;
  opening_balance : option float;
  closing_balance : option float
}.

Definition empty_account : AccountInfo := mk_account None None None None.

(** [bool(account_info)]: the dictionary has a key. *)
Definition account_nonempty (a : AccountInfo) : bool :=
  match account_number a, account_name a, opening_balance a, closing_balance a with
  | None, None, None, None => false
  | _, _, _, _ => true
  end.

Definition set_opening (a : AccountInfo) (x : float) : AccountInfo :=
  mk_account (account_number a) (account_name a) (Some x) (closing_balance a).

Definition set_closing (a : AccountInfo) (x : float) : AccountInfo :=
  mk_account (account_number a) (account_name a) (opening_balance a) (Some x).

(** [(\d{10,})] *)
Definition account_pattern : list Re.item := [Re.Cls Text.is_digit 10 None].

Definition upper_or_space (c : ascii) : bool := Text.is_upper c || Text.is_space c.

(** [\b[A-Z][A-Z\s]{10,}\b] *)
Definition name_pattern : list Re.item :=
  [Re.WordB; Re.Cls Text.is_upper 1 (Some 1%nat); Re.Cls upper_or_space 10 None; Re.WordB].

Fixpoint lstrip (s : string) : string :=
  match s with
  | String c t => if Text.is_space c then lstrip t else s
  | EmptyString => s
  end.

Definition rev_string (s : string) : string :=
  string_of_list_ascii (rev (list_ascii_of_string s)).

(** [s.strip()] *)
Definition strip (s : string) : string :=
  rev_string (lstrip (rev_string (lstrip s))).

(** "Extract account number (10+ digits)". *)
Definition extract_number (row_text : string) (a : AccountInfo) : AccountInfo :=
  match Re.re_search account_pattern row_text, account_number a with
  | Some matched, None =>
      mk_account (Some matched) (account_name a) (opening_balance a) (closing_balance a)
  | _, _ => a
  end.

(** "Extract account name (uppercase letters and spaces)". *)
Definition extract_name (row_text : string) (a : AccountInfo) : AccountInfo :=
  match Re.re_search name_pattern row_text, account_name a with
  | Some matched, None =>
      let potential_name := strip matched in
      if negb (Text.contains "ACCOUNT" potential_name)
      then mk_account (account_number a) (Some potential_name)
                      (opening_balance a) (closing_balance a)
      else a
  | _, _ => a
  end.

(** The body of "Extract balances" for the cell at index [i] of [row]. *)
Definition balance_step (row : list Cell) (a : AccountInfo) (i : nat) (cell : Cell)
  : result AccountInfo :=
  match cell with
  | CStr s =>
      if Text.contains "opening balance" (Text.lower s) && (i + 1 <? List.length row)%nat
      then x <- _parse_amount (nth (i + 1) row CNone) ;; Ok (set_opening a x)
      else if Text.contains "closing balance" (Text.lower s) && (i + 1 <? List.length row)%nat
      then x <- _parse_amount (nth (i + 1) row CNone) ;; Ok (set_closing a x)
      else Ok a
  | _ => Ok a
  end.

Fixpoint balance_loop (row cells : list Cell) (i : nat) (a : AccountInfo)
  : result AccountInfo :=
  match cells with
  | [] => Ok a
  | cell :: rest => a' <- balance_step row a i cell ;; balance_loop row rest (S i) a'
  end.

(** The body of the loop over [account_info_rows]. *)
Definition account_row (raw_data : Grid) (a : AccountInfo) (row_index : nat)
  : result AccountInfo :=
  match nth_error raw_data row_index with
  | Some ((_ :: _) as row) =>
      let row_text := Text.join " " (map str_cell (filter not_none row)) in
      balance_loop row row 0 (extract_name row_text (extract_number row_text a))
  | _ => Ok a
  end.

Fixpoint account_rows (raw_data : Grid) (rows : list nat) (a : AccountInfo)
  : result AccountInfo :=
  match rows with
  | [] => Ok a
  | row_index :: rest => a' <- account_row raw_data a row_index ;; account_rows raw_data rest a'
  end.

(** [_extract_account_info] *)
Definition _extract_account_info (raw_data : Grid) (format_info : FormatInfo)
  : result AccountInfo :=
  match account_info_rows format_info with
  | Some rows => account_rows raw_data rows empty_account
  | None => Ok empty_account
  end.

(** ** Transaction extractor *)

(** A raw transaction: header text to cell. *)
Definition RawTransaction : Type := dict Cell.

(** [any(cell for cell in row if cell is not None)] *)
Definition row_has_value (row : list Cell) : bool :=
  existsb truthy (filter not_none row).

Definition has_date_or_amount (row : list Cell) : bool :=
  existsb (fun cell => _is_date cell || _is_amount cell) (filter not_none row).

(** The loop over [enumerate(headers)], from column [j]. *)
Fixpoint build_transaction (headers row : list Cell) (j : nat) (transaction : RawTransaction)
  : RawTransaction :=
  match headers with
  | [] => transaction
  | header :: rest =>
      build_transaction rest row (S j)
        (if truthy header then
           match nth_error row j with
           | Some cell => if not_none cell then dset (str_cell header) cell transaction
                          else transaction
           | None => transaction
           end
         else transaction)
  end.

Definition is_empty {A : Type} (l : list A) : bool :=
  match l with
  | [] => true
  | _ => false
  end.

(** The loop over the rows below the header. *)
Fixpoint scan_rows (headers : list Cell) (rows : Grid) (transactions : list RawTransaction)
  : list RawTransaction :=
  match rows with
  | [] => transactions
  | row :: rest =>
      if is_empty row || negb (row_has_value row) then scan_rows headers rest transactions
      else if has_date_or_amount row then
        let transaction := build_transaction headers row 0 [] in
        if is_empty transaction then scan_rows headers rest transactions
        else scan_rows headers rest (transactions ++ [transaction])%list
      else scan_rows headers rest transactions
  end.

Definition header_not_found : string := "Unable to locate transaction header row".

(** [_extract_transactions] *)
Definition _extract_transactions (raw_data : Grid) (format_info : FormatInfo)
  : result (list RawTransaction) :=
  match header_row format_info with
  | HInt header_row_index =>
      if header_row_index =? -1 then Raise (ValueError header_not_found)
      else
        headers <- py_index raw_data header_row_index ;;
        let len := Z.of_nat (List.length raw_data) in
        rows <- map_result (py_index raw_data)
                  (zrange (header_row_index + 1) (Z.to_nat (len - (header_row_index + 1)))) ;;
        Ok (scan_rows headers rows [])
  | HText _ => Raise (TypeError "list indices must be integers or slices, not str")
  end.

(** ** Calendar *)

(** Days from 1970-01-01 to a civil date, and back (proleptic Gregorian). *)
Definition days_from_civil (y m d : Z) : Z :=
  let y' := if m <=? 2 then y - 1 else y in
  let era := y' / 400 in
  let yoe := y' - era * 400 in
  let doy := (153 * (if 2 <? m then m - 3 else m + 9) + 2) / 5 + d - 1 in
  let doe := yoe * 365 + yoe / 4 - yoe / 100 + doy in
  era * 146097 + doe - 719468.

Definition civil_from_days (z : Z) : Z * Z * Z :=
  let z' := z + 719468 in
  let era := z' / 146097 in
  let doe := z' - era * 146097 in
  let yoe := (doe - doe / 1460 + doe / 36524 - doe / 146096) / 365 in
  let doy := doe - (365 * yoe + yoe / 4 - yoe / 100) in
  let mp := (5 * doy + 2) / 153 in
  let d := doy - (153 * mp + 2) / 5 + 1 in
  let m := if mp <? 10 then mp + 3 else mp - 9 in
  (yoe + era * 400 + (if m <=? 2 then 1 else 0), m, d).

Definition microseconds_per_day : Z := 86400 * 10 ^ 6.
Definition nanoseconds_per_day : Z := 86400 * 10 ^ 9.

(** A [pandas.Timedelta] is a signed 64-bit count of nanoseconds, the least
    value being kept for [NaT]. *)
Definition timedelta_of_ns (ns : Z) : option Z :=
  if (- 2 ^ 63 <? ns) && (ns <? 2 ^ 63) then Some ns else None.

(** [pd.Timedelta(days=d)] for an integer and for a float: [None] is the
    overflow (or conversion) error it raises. *)
Definition timedelta_days_int (d : Z) : option Z :=
  timedelta_of_ns (d * nanoseconds_per_day).

Definition timedelta_days_float (x : float) : option Z :=
  match PyFloat.exact x with
  | Some (n, d) => timedelta_of_ns (Z.quot (n * nanoseconds_per_day) d)
  | None => None
  end.

(** [dt + delta]: the timedelta contributes whole microseconds. *)
Definition add_timedelta (dt : datetime) (ns : Z) : datetime :=
  let us := ((hour dt * 60 + minute dt) * 60 + second dt) * 10 ^ 6
            + microsecond dt + ns / 1000 in
  let '(y, m, d) := civil_from_days (days_from_civil (year dt) (month dt) (day dt)
                                     + us / microseconds_per_day) in
  let r := us mod microseconds_per_day in
  mk_datetime y m d (r / (3600 * 10 ^ 6)) (r / (60 * 10 ^ 6) mod 60)
              (r / 10 ^ 6 mod 60) (r mod 10 ^ 6).

Definition excel_epoch : datetime := mk_datetime 1900 1 1 0 0 0 0.

(** [strftime] with ['%d/%m/%Y'], ['%m/%d/%Y'] and ['%Y-%m-%d']. *)
Definition dd_mm_yyyy (d : datetime) : string :=
  Text.zero_pad 2 (day d) ++ "/" ++ Text.zero_pad 2 (month d) ++ "/" ++ Text.zero_pad 4 (year d).
Definition mm_dd_yyyy (d : datetime) : string :=
  Text.zero_pad 2 (month d) ++ "/" ++ Text.zero_pad 2 (day d) ++ "/" ++ Text.zero_pad 4 (year d).
Definition yyyy_mm_dd (d : datetime) : string :=
  Text.zero_pad 4 (year d) ++ "-" ++ Text.zero_pad 2 (month d) ++ "-" ++ Text.zero_pad 2 (day d).

(** "Format according to target format". *)
Definition render_date (target_format : string) (d : datetime) : string :=
  if String.eqb target_format "DD/MM/YYYY" then dd_mm_yyyy d
  else if String.eqb target_format "MM/DD/YYYY" then mm_dd_yyyy d
  else if String.eqb target_format "YYYY-MM-DD" then yyyy_mm_dd d
  else dd_mm_yyyy d.

(** The outcome of [pd.to_datetime(text, errors='coerce')]: a timestamp,
    [NaT], or an exception. *)
Inductive Parsed : Type :=
| Timestamp (d : datetime)
| NaT
| ParseError.

(** The [options] dictionary of a transform. *)
Record Options : Type := mk_options {
  date_format : option string;
  include_metadata : option bool
}.

Definition no_options : Options := mk_options None None.

(** A standardized transaction: canonical field to value. *)
Definition StandardTransaction : Type := dict Cell.

(** ** Standardizer and transform *)

Section Standardizer.

(** [pandas.to_datetime] on text. *)
Variable to_datetime : string -> Parsed.

(** The [try] block of [_standardize_date] up to [date_obj]: [None] when
    the method answers [str(date_value)] instead (the [else] branch, a
    [NaT], or an exception). *)
Definition date_object (date_value : Cell) : option datetime :=
  match date_value with
  | CInt n =>
      if 1000 <? n
      then option_map (add_timedelta excel_epoch) (timedelta_days_int (n - 2))
      else None
  | CFloat x =>
      if PrimFloat.ltb 1000%float x
      then option_map (add_timedelta excel_epoch)
                      (timedelta_days_float (PrimFloat.sub x 2%float))
      else None
  | CStr s =>
      match to_datetime s with
      | Timestamp d => Some d
      | NaT | ParseError => None
      end
  | CDate d => Some d
  | CNone => None
  end.

(** [_standardize_date] *)
Definition _standardize_date (date_value : Cell) (target_format : string) : string :=
  if negb (truthy date_value) then ""
  else match date_object date_value with
       | Some date_obj => render_date target_format date_obj
       | None => str_cell date_value
       end.

(** [_standardize_amount] *)
Definition _standardize_amount (amount : Cell) : result string :=
  match amount with
  | CNone => Ok ""
  | CStr "" => Ok ""
  | _ => parsed <- _parse_amount amount ;; Ok (PyFloat.format_2f parsed)
  end.

(** [standardized.get(k)] as a condition. *)
Definition get_truthy (k : string) (d : StandardTransaction) : bool :=
  match dget k d with
  | Some c => truthy c
  | None => false
  end.

(** "Ensure proper formatting": the two closing statements of
    [_handle_debit_credit_logic]. *)
Definition ensure_formatting (s1 : StandardTransaction) : StandardTransaction :=
  let s2 := if get_truthy "Debit" s1 && negb (get_truthy "Credit" s1)
            then dset "Credit" (CStr "") s1 else s1 in
  if get_truthy "Credit" s2 && negb (get_truthy "Debit" s2)
  then dset "Debit" (CStr "") s2 else s2.

(** [_handle_debit_credit_logic], returning the updated dictionary. *)
Definition _handle_debit_credit_logic (standardized : StandardTransaction)
           (original : RawTransaction) : result StandardTransaction :=
  s1 <- (match dget "Amount" original with
         | Some raw_amount =>
             if negb (get_truthy "Debit" standardized) && negb (get_truthy "Credit" standardized)
             then
               amount <- _parse_amount raw_amount ;;
               if PrimFloat.ltb amount 0%float
               then Ok (dset "Credit" (CStr "")
                          (dset "Debit" (CStr (PyFloat.format_2f (PrimFloat.abs amount)))
                                standardized))
               else Ok (dset "Debit" (CStr "")
                          (dset "Credit" (CStr (PyFloat.format_2f amount)) standardized))
             else Ok standardized
         | None => Ok standardized
         end) ;;
  Ok (ensure_formatting s1).

Definition is_amount_field (standard : string) : bool :=
  existsb (String.eqb standard) ["Debit"; "Credit"; "Balance"].

(** "Special processing based on column type". *)
Definition convert_value (options : Options) (standard : string) (value : Cell)
  : result Cell :=
  if Text.contains "Date" standard then
    Ok (CStr (_standardize_date value
                (match date_format options with
                 | Some f => f
                 | None => "DD/MM/YYYY"
                 end)))
  else if is_amount_field standard then
    text <- _standardize_amount value ;; Ok (CStr text)
  else Ok value.

(** "Apply mapping from format configuration": the loop over
    [format_info['mapping'].items()]. *)
Fixpoint apply_mapping (options : Options) (items : dict string)
         (transaction : RawTransaction) (standard_transaction : StandardTransaction)
  : result StandardTransaction :=
  match items with
  | [] => Ok standard_transaction
  | (original, standard) :: rest =>
      match dget original transaction with
      | Some value =>
          if not_none value then
            v <- convert_value options standard value ;;
            apply_mapping options rest transaction (dset standard v standard_transaction)
          else apply_mapping options rest transaction standard_transaction
      | None => apply_mapping options rest transaction standard_transaction
      end
  end.

(** "Ensure all standard columns exist". *)
Definition backfill (standard_transaction : StandardTransaction) : StandardTransaction :=
  fold_left (fun st header => if dmem header st then st else dset header (CStr "") st)
            standard_headers standard_transaction.

(** The body of the loop of [_standardize_transactions]. *)
Definition standardize_one (format_info : FormatInfo) (options : Options)
           (transaction : RawTransaction) : result StandardTransaction :=
  mapped <- apply_mapping options (mapping format_info) transaction [] ;;
  _handle_debit_credit_logic (backfill mapped) transaction.

(** [_standardize_transactions] *)
Definition _standardize_transactions (transactions : list RawTransaction)
           (format_info : FormatInfo) (options : Options)
  : result (list StandardTransaction) :=
  map_result (standardize_one format_info options) transactions.

(** The [metadata] entry of a successful result. *)
Record ResultMetadata : Type := mk_metadata {
  meta_file_name : string;
  processed_at : string;
  meta_standard_headers : list string
}.

Record Transformed : Type := mk_transformed {
  account_info : AccountInfo;
  transactions : list StandardTransaction;
  original_format : string;
  records_processed : Z;
  metadata : ResultMetadata
}.

(** The dictionary returned by [transform_statement]: [success] is [True]
    for [Success] and [False] for [Failure]. *)
Inductive TransformResult : Type :=
| Success (r : Transformed)
| Failure (error : string) (file_name : string).

(** The [try] block of [transform_statement], after the file is read:
    [file_name] is [Path(file_path).name] and [now] is
    [datetime.now().isoformat()]. *)
Definition transform_body (file_name now : string) (raw_data : Grid) (options : Options)
  : result Transformed :=
  let format_info := _detect_format raw_data in
  account_info <- _extract_account_info raw_data format_info ;;
  transactions <- _extract_transactions raw_data format_info ;;
  standardized_transactions <- _standardize_transactions transactions format_info options ;;
  Ok (mk_transformed account_info standardized_transactions (name format_info)
        (Z.of_nat (List.length standardized_transactions))
        (mk_metadata file_name now standard_headers)).

(** [transform_statement] on a loaded grid. *)
Definition transform_statement (file_name now : string) (raw_data : Grid)
           (options : Options) : TransformResult :=
  match transform_body file_name now raw_data options with
  | Ok r => Success r
  | Raise e => Failure (str_exn e) file_name
  end.

End Standardizer.

(** ** Output projector *)

(** The two sheets written by [generate_standardized_file]: the transactions
    (column names and rows) and, when it is written, the metadata (rows of
    the columns [Field] and [Value]). *)
Record Workbook : Type := mk_workbook {
  transactions_sheet : list string * list (list Cell);
  metadata_sheet : option (list (string * Cell))
}.

Definition has_name (names : list string) (n : string) : bool :=
  existsb (String.eqb n) names.

(** The columns of [pd.DataFrame(records)]: the keys of the records, in the
    order they first appear. *)
Definition frame_columns (records : list StandardTransaction) : list string :=
  fold_left
    (fun cols record =>
       fold_left (fun cols item => if has_name cols (fst item) then cols
                                   else (cols ++ [fst item])%list)
                 record cols)
    records [].

(** A record's entry in a column; a record without the key holds NaN. *)
Definition frame_value (record : StandardTransaction) (column : string) : Cell :=
  match dget column record with
  | Some c => c
  | None => CFloat PrimFloat.nan
  end.

(** [pd.DataFrame(records)[self.standard_headers]]: selecting a column the
    frame does not have raises [KeyError] (the text of pandas' message is
    shortened to the missing names). *)
Definition transactions_frame (records : list StandardTransaction)
  : result (list string * list (list Cell)) :=
  let cols := frame_columns records in
  match filter (fun h => negb (has_name cols h)) standard_headers with
  | [] => Ok (standard_headers,
              map (fun record => map (frame_value record) standard_headers) records)
  | missing => Raise (KeyError (Text.join ", " missing ++ " not in index"))
  end.

Definition text_or_blank (o : option string) : Cell :=
  match o with
  | Some s => CStr s
  | None => CStr ""
  end.

Definition float_or_blank (o : option float) : Cell :=
  match o with
  | Some x => CFloat x
  | None => CStr ""
  end.

(** The list [metadata] of the metadata sheet. *)
Definition metadata_rows (transformed_data : Transformed) : list (string * Cell) :=
  let info := account_info transformed_data in
  [ ("Account Information", CStr "");
    ("Account Number", text_or_blank (account_number info));
    ("Account Name", text_or_blank (account_name info));
    ("Opening Balance", float_or_blank (opening_balance info));
    ("Closing Balance", float_or_blank (closing_balance info));
    ("", CStr "");
    ("Processing Information", CStr "");
    ("Original Format", CStr (original_format transformed_data));
    ("Records Processed", CInt (records_processed transformed_data));
    ("Processed At", CStr (processed_at (metadata transformed_data))) ].

(** [options.get('include_metadata', True)] *)
Definition metadata_requested (options : Options) : bool :=
  match include_metadata options with
  | Some b => b
  | None => true
  end.

(** [generate_standardized_file], as the sheets it writes. *)
Definition generate_standardized_file (transformed_data : Transformed) (options : Options)
  : result Workbook :=
  frame <- transactions_frame (transactions transformed_data) ;;
  Ok (mk_workbook frame
        (if metadata_requested options && account_nonempty (account_info transformed_data)
         then Some (metadata_rows transformed_data)
         else None)).

(** ** The file reader and the web application *)






(** [request.form.get(k, default)] *)
Definition form_get (form : dict string) (k default : string) : string :=
  match dget k form with
  | Some v => v
  | None => default
  end.

(** The options [transform_statements] builds from the form; its [currency]
    entry, which the transformer never reads, is left out. *)
Definition request_options (form : dict string) : Options :=
  mk_options (Some (form_get form "date_format" "DD/MM/YYYY"))
             (Some (String.eqb (Text.lower (form_get form "include_metadata" "false"))
                               "true")).

(** ** A date parser to run examples with

    An instance of the [to_datetime] parameter: it reads the ISO shape
    [YYYY-MM-DD] and answers [NaT] on any other text. *)

Definition days_in_month (y m : Z) : Z :=
  days_from_civil (if m =? 12 then y + 1 else y) (if m =? 12 then 1 else m + 1) 1
  - days_from_civil y m 1.

Definition number_of (s : string) : Z :=
  fold_left (fun acc c => 10 * acc + PyFloat.digit_val c) (list_ascii_of_string s) 0.

Definition iso_to_datetime (s : string) : Parsed :=
  match Re.re_match [digits 4 4; Re.Cls (PyFloat.is_char 45) 1 (Some 1%nat); digits 2 2;
                     Re.Cls (PyFloat.is_char 45) 1 (Some 1%nat); digits 2 2] s with
  | Some m =>
      if (String.length s =? 10)%nat then
        let y := number_of (substring 0 4 s) in
        let mo := number_of (substring 5 2 s) in
        let d := number_of (substring 8 2 s) in
        if (1 <=? mo) && (mo <=? 12) && (1 <=? d) && (d <=? days_in_month y mo)
        then Timestamp (mk_datetime y mo d 0 0 0 0)
        else NaT
      else NaT
  | None => NaT
  end.

(** ** Notions used in the statements *)

(** The exception of [float(n)] on an integer beyond the float range. *)
Definition int_too_large : exn := OverflowError "int too large to convert to float".

(** A cell [_parse_amount] accepts without raising. *)
Definition convertible (c : Cell) : bool :=
  match _parse_amount c with
  | Ok _ => true
  | Raise _ => false
  end.

(** A grid all of whose cells are convertible. *)
Definition grid_convertible (raw_data : Grid) : bool :=
  forallb (forallb convertible) raw_data.



(** Every target of the column mapping is a canonical field. *)
Definition canonical_mapping (m : dict string) : Prop :=
  Forall (fun item => In (snd item) standard_headers) m.

(** Where an entry of a standardized transaction comes from: the backfill,
    a mapped column of the raw transaction, or the debit/credit logic. *)
Definition sourced (to_datetime : string -> Parsed) (options : Options)
           (items : dict string) (transaction : RawTransaction)
           (item : string * Cell) : Prop :=
  In (fst item) standard_headers /\
  (snd item = CStr ""
   \/ (exists original value,
          In (original, fst item) items /\ dget original transaction = Some value /\
          not_none value = true /\
          convert_value to_datetime options (fst item) value = Ok (snd item))
   \/ ((fst item = "Debit" \/ fst item = "Credit") /\ exists text, snd item = CStr text)).

(** The rows that become transactions, in the words of the claim: a row that
    is not entirely absent, has a cell that is a date or an amount, and gives
    a non-empty mapping from header to cell. *)
Definition row_present (row : list Cell) : bool := existsb not_none row.

(** *** Generic detection *)

(** The canonical field the "create mapping" step of
    [_detect_generic_format] gives a header text, if any. *)
Definition header_field (s : string) : option string :=
  dget s (map_header_cell [] (CStr s)).

(** The row has a text cell equal to [s]. *)
Definition has_text (row : list Cell) (s : string) : bool :=
  existsb (fun c => match c with
                    | CStr t => String.eqb t s
                    | _ => false
                    end) row.

(** *** Account information *)

(** The text of a row as the account extractor searches it. *)
Definition row_text (row : list Cell) : string :=
  Text.join " " (map str_cell (filter not_none row)).

(** The first value present in a list of optional values. *)
Fixpoint first_some {A : Type} (l : list (option A)) : option A :=
  match l with
  | [] => None
  | Some a :: _ => Some a
  | None :: rest => first_some rest
  end.

(** The account number a listed row offers: the leftmost run of ten or more
    digits of its text; a row index beyond the grid or an empty row offers
    none. *)
Definition number_in_row (raw_data : Grid) (row_index : nat) : option string :=
  match nth_error raw_data row_index with
  | Some ((_ :: _) as row) => Re.re_search account_pattern (row_text row)
  | _ => None
  end.

(** The account name a listed row offers: the leftmost match of the name
    pattern, stripped, unless it contains [ACCOUNT]. *)
Definition name_in_row (raw_data : Grid) (row_index : nat) : option string :=
  match nth_error raw_data row_index with
  | Some ((_ :: _) as row) =>
      match Re.re_search name_pattern (row_text row) with
      | Some matched =>
          if Text.contains "ACCOUNT" (strip matched) then None else Some (strip matched)
      | None => None
      end
  | _ => None
  end.

(** [o], or [o'] when [o] is absent. *)
Definition or_else {A : Type} (o o' : option A) : option A :=
  match o with
  | Some a => Some a
  | None => o'
  end.

(** *** Raw transactions *)

(** The cell a header text stands for in a row: the cell of the last column
    whose header is that text and is true as a condition, and whose cell is
    present. *)
Fixpoint last_entry (k : string) (headers row : list Cell) : option Cell :=
  match headers, row with
  | header :: hs, cell :: cs =>
      or_else (last_entry k hs cs)
              (if truthy header && not_none cell && String.eqb (str_cell header) k
               then Some cell else None)
  | _, _ => None
  end.

(** The row test of the extractor without its blank-row part. *)
Definition transaction_row (headers row : list Cell) : bool :=
  has_date_or_amount row && negb (is_empty (build_transaction headers row 0 [])).

(** *** Standardized transactions *)

(** The raw value a canonical field is made from: that of the last entry of
    the column mapping that targets the field and whose source column is
    present in the transaction. *)
Fixpoint source_value (h : string) (items : dict string) (transaction : RawTransaction)
  : option Cell :=
  match items with
  | [] => None
  | (original, standard) :: rest =>
      or_else (source_value h rest transaction)
              (if String.eqb standard h
               then match dget original transaction with
                    | Some value => if not_none value then Some value else None
                    | None => None
                    end
               else None)
  end.

(** The first statement of [_handle_debit_credit_logic]: "If amounts are in
    a single column with +/- signs". *)
Definition single_amount_column (standardized : StandardTransaction)
           (original : RawTransaction) : result StandardTransaction :=
  match dget "Amount" original with
  | Some raw_amount =>
      if negb (get_truthy "Debit" standardized) && negb (get_truthy "Credit" standardized)
      then
        amount <- _parse_amount raw_amount ;;
        if PrimFloat.ltb amount 0%float
        then Ok (dset "Credit" (CStr "")
                   (dset "Debit" (CStr (PyFloat.format_2f (PrimFloat.abs amount)))
                         standardized))
        else Ok (dset "Debit" (CStr "")
                   (dset "Credit" (CStr (PyFloat.format_2f amount)) standardized))
      else Ok standardized
  | None => Ok standardized
  end.

(** Debit and Credit, where present, hold text. *)
Definition amounts_are_text (st : StandardTransaction) : Prop :=
  forall h v, h = "Debit" \/ h = "Credit" -> dget h st = Some v -> exists text, v = CStr text.

(** Two standardized transactions with the same keys in the same order that
    agree on every field whose name does not contain [Date]. *)
Definition same_but_dates (st1 st2 : StandardTransaction) : Prop :=
  map fst st1 = map fst st2 /\
  forall h, Text.contains "Date" h = false -> dget h st1 = dget h st2.

(** Two outcomes that raise the same exception, or return related values. *)
Definition agree {A : Type} (R : A -> A -> Prop) (r1 r2 : result A) : Prop :=
  match r1, r2 with
  | Ok a1, Ok a2 => R a1 a2
  | Raise e1, Raise e2 => e1 = e2
  | _, _ => False
  end.

(** *** What a pattern consumes *)






(** The inner loop of [match_here] on a repetition: try the continuation
    with the characters taken, then with one fewer, down to [lo]. *)
Definition give_back (k : option ascii -> string -> list ascii -> option (list ascii * string))
           (prev : option ascii) (lo : nat) (matched : list ascii)
  : list ascii -> string -> option (list ascii * string) :=
  fix give_back (taken : list ascii) (s' : string) {struct taken} :=
    if (List.length taken <? lo)%nat then None
    else
      match k (Re.last_char prev taken) s' (taken ++ matched)%list with
      | Some r => Some r
      | None =>
          match taken with
          | [] => None
          | c :: taken' => give_back taken' (String c s')
          end
      end.

(** ** Sample statements *)

(** A statement of an unknown bank: a title row, an account row, the header
    row, and rows of which the second is entirely absent and the third holds
    neither a date nor an amount. *)
Definition sample_grid : Grid :=
  [ [CStr "ACME BANK PLC STATEMENT"];
    [CStr "Account No"; CInt 1234567890];
    [CStr "Date"; CStr "Narration"; CStr "Debit"; CStr "Credit"; CStr "Balance"; CStr "Ref"];
    [CStr "2024-03-05"; CStr "POS purchase"; CFloat 500%float; CNone;
     CFloat 1500%float; CInt 12345];
    [CNone; CNone];
    [CStr "Note"; CStr "carried forward"];
    [CStr "2024-03-06"; CStr "Salary"; CNone; CStr "2,000.00"; CStr "3,500.00"] ].

(** The same statement without the title and account rows. *)
Definition sample_grid_bare : Grid := skipn 2 sample_grid.

Definition no_result : Transformed :=
  mk_transformed empty_account [] "" 0 (mk_metadata "" "" []).

Definition result_of (t : TransformResult) : Transformed :=
  match t with
  | Success r => r
  | Failure _ _ => no_result
  end.

Definition sample_result : Transformed :=
  Eval vm_compute in
    result_of (transform_statement iso_to_datetime "statement.xlsx"
                 "2024-01-01T00:00:00" sample_grid no_options).

Definition sample_result_bare : Transformed :=
  Eval vm_compute in
    result_of (transform_statement iso_to_datetime "statement.xlsx"
                 "2024-01-01T00:00:00" sample_grid_bare no_options).

(** * Properties *)

(** ** Fallible computations *)

Lemma bind_ok {A B : Type} (r : result A) (k : A -> result B) (b : B) :
  bind r k = Ok b -> exists a, r = Ok a /\ k a = Ok b.
Proof.
  destruct r as [a | e]; simpl; intros H.
  - exists a. split; [reflexivity | exact H].
  - discriminate H.
Qed.

Lemma map_result_ok {A B : Type} (f : A -> result B) (l : list A) (bs : list B) :
  map_result f l = Ok bs -> Forall2 (fun a b => f a = Ok b) l bs.
Proof.
  revert bs. induction l as [| a t IH]; simpl; intros bs H.
  - injection H as <-. constructor.
  - apply bind_ok in H. destruct H as [b [Hb H]].
    apply bind_ok in H. destruct H as [bs' [Hbs H]].
    injection H as <-. constructor; [exact Hb | apply IH; exact Hbs].
Qed.

Lemma map_result_all {A B : Type} (f : A -> result B) (l : list A) :
  (forall a, In a l -> exists b, f a = Ok b) -> exists bs, map_result f l = Ok bs.
Proof.
  induction l as [| a t IH]; simpl; intros H.
  - exists []. reflexivity.
  - destruct (H a (or_introl eq_refl)) as [b Hb].
    destruct IH as [bs Hbs]; [intros x Hx; apply H; right; exact Hx |].
    exists (b :: bs). rewrite Hb, Hbs. reflexivity.
Qed.

(** ** Dictionaries *)

Section DictFacts.

Context {V : Type}.
Implicit Types (d : dict V) (k : string) (v : V).

Lemma dget_dset_same d k v : dget k (dset k v d) = Some v.
Proof.
  induction d as [| [k' v'] t IH]; simpl.
  - rewrite String.eqb_refl. reflexivity.
  - destruct (String.eqb k' k) eqn:E; simpl; rewrite E; [reflexivity | exact IH].
Qed.

Lemma dget_dset_other d k k' v : k' <> k -> dget k' (dset k v d) = dget k' d.
Proof.
  intros Hne. induction d as [| [k0 v0] t IH]; simpl.
  - destruct (String.eqb k k') eqn:E; [| reflexivity].
    apply String.eqb_eq in E. congruence.
  - destruct (String.eqb k0 k) eqn:E; simpl.
    + apply String.eqb_eq in E. subst k0.
      destruct (String.eqb k k') eqn:E'; [| reflexivity].
      apply String.eqb_eq in E'. congruence.
    + destruct (String.eqb k0 k'); [reflexivity | exact IH].
Qed.

Lemma dmem_dset d k k' v : dmem k' (dset k v d) = String.eqb k k' || dmem k' d.
Proof.
  unfold dmem. destruct (String.eqb k k') eqn:E.
  - apply String.eqb_eq in E. subst k'. rewrite dget_dset_same. reflexivity.
  - rewrite dget_dset_other; [reflexivity |].
    intros ->. rewrite String.eqb_refl in E. discriminate E.
Qed.

Lemma dget_In d k v : dget k d = Some v -> In (k, v) d.
Proof.
  induction d as [| [k' v'] t IH]; simpl; intros H; [discriminate H |].
  destruct (String.eqb k' k) eqn:E.
  - apply String.eqb_eq in E. injection H as <-. left. congruence.
  - right. apply IH. exact H.
Qed.

Lemma Forall_dset (P : string * V -> Prop) d k v :
  Forall P d -> P (k, v) -> Forall P (dset k v d).
Proof.
  intros Hd Hk. induction Hd as [| [k' v'] t Hx Ht IH]; simpl.
  - constructor; [exact Hk | constructor].
  - destruct (String.eqb k' k) eqn:E.
    + apply String.eqb_eq in E. subst k'. constructor; assumption.
    + constructor; assumption.
Qed.

Lemma keys_dset d k v :
  map fst (dset k v d) = if dmem k d then map fst d else (map fst d ++ [k])%list.
Proof.
  unfold dmem. induction d as [| [k' v'] t IH]; simpl; [reflexivity |].
  destruct (String.eqb k' k) eqn:E; simpl; [reflexivity |].
  rewrite IH. destruct (dget k t); reflexivity.
Qed.

Lemma dmem_keys d k : dmem k d = true <-> In k (map fst d).
Proof.
  unfold dmem. induction d as [| [k' v'] t IH]; simpl.
  - split; [discriminate | contradiction].
  - destruct (String.eqb k' k) eqn:E.
    + apply String.eqb_eq in E. split; [intros _; left; exact E | reflexivity].
    + rewrite IH. split; [intros H; right; exact H |].
      intros [H | H]; [| exact H].
      subst k'. rewrite String.eqb_refl in E. discriminate E.
Qed.

Lemma NoDup_keys_dset d k v : NoDup (map fst d) -> NoDup (map fst (dset k v d)).
Proof.
  intros H. rewrite keys_dset. destruct (dmem k d) eqn:E; [exact H |].
  apply NoDup_app; [exact H | repeat constructor; intros [] | ].
  intros x Hx [Hk | []]. subst x.
  apply dmem_keys in Hx. congruence.
Qed.

End DictFacts.

(** ** Format detection *)

Lemma first_match_split (earlier later : dict FormatInfo) (k : string)
      (f : FormatInfo) (text : string) :
  k <> "GENERIC" ->
  identifiers_found f text = true ->
  (forall k' f', In (k', f') earlier -> k' <> "GENERIC" ->
                 identifiers_found f' text = false) ->
  first_match (earlier ++ (k, f) :: later)%list text = Some (with_key k f).
Proof.
  intros Hk Hf. induction earlier as [| [k0 f0] t IH]; simpl; intros Hearlier.
  - destruct (String.eqb k "GENERIC") eqn:E.
    + apply String.eqb_eq in E. contradiction.
    + rewrite Hf. reflexivity.
  - destruct (String.eqb k0 "GENERIC") eqn:E.
    + apply IH. intros k' f' Hin. apply Hearlier. right. exact Hin.
    + rewrite (Hearlier k0 f0).
      * apply IH. intros k' f' Hin. apply Hearlier. right. exact Hin.
      * left. reflexivity.
      * intros ->. discriminate E.
Qed.

Lemma first_match_none (formats : dict FormatInfo) (text : string) :
  first_match formats text = None <->
  (forall k f, In (k, f) formats -> k <> "GENERIC" -> identifiers_found f text = false).
Proof.
  induction formats as [| [k0 f0] t IH]; simpl.
  - split; [intros _ k f [] | reflexivity].
  - destruct (String.eqb k0 "GENERIC") eqn:E.
    + rewrite IH. apply String.eqb_eq in E. subst k0. split.
      * intros H k f [Heq | Hin]; [injection Heq as <- <-; congruence | apply H; exact Hin].
      * intros H k f Hin. apply H. right. exact Hin.
    + destruct (identifiers_found f0 text) eqn:Ef.
      * split; [discriminate |]. intros H.
        rewrite (H k0 f0) in Ef; [discriminate Ef | left; reflexivity |].
        intros ->. discriminate E.
      * rewrite IH. split.
        -- intros H k f [Heq | Hin]; [injection Heq as <- <-; intros _; exact Ef | apply H; exact Hin].
        -- intros H k f Hin. apply H. right. exact Hin.
Qed.

Lemma first_match_registered (formats : dict FormatInfo) (text : string) (p : FormatInfo) :
  first_match formats text = Some p ->
  exists k f, In (k, f) formats /\ k <> "GENERIC" /\
              identifiers_found f text = true /\ p = with_key k f.
Proof.
  induction formats as [| [k0 f0] t IH]; simpl; intros H; [discriminate H |].
  destruct (String.eqb k0 "GENERIC") eqn:E.
  - destruct (IH H) as [k [f [Hin Hrest]]]. exists k, f. split; [right; exact Hin | exact Hrest].
  - destruct (identifiers_found f0 text) eqn:Ef.
    + injection H as <-. exists k0, f0.
      repeat split; [left; reflexivity | intros ->; discriminate E | exact Ef].
    + destruct (IH H) as [k [f [Hin Hrest]]]. exists k, f. split; [right; exact Hin | exact Hrest].
Qed.


(** ** Account information: the only error is the integer conversion *)

Lemma parse_amount_error (c : Cell) (e : exn) :
  _parse_amount c = Raise e -> e = int_too_large.
Proof.
  destruct c as [| n | x | s | d]; simpl; try discriminate.
  - unfold PyFloat.float_of_Z. destruct (n =? 0); [discriminate |].
    destruct (PyFloat.nearest (Z.abs n) 1); [discriminate |].
    intros H. injection H as <-. reflexivity.
  - destruct (PyFloat.float_of_str (clean_amount s)); discriminate.
Qed.





Lemma balance_step_ok row a i cell :
  forallb convertible row = true -> exists a', balance_step row a i cell = Ok a'.
Proof.
  intros Hrow. unfold balance_step.
  assert (Hnth : exists x, _parse_amount (nth (i + 1) row CNone) = Ok x).
  { destruct (nth_in_or_default (i + 1) row CNone) as [Hin | Hdef].
    - rewrite forallb_forall in Hrow. specialize (Hrow _ Hin).
      unfold convertible in Hrow. destruct (_parse_amount _) as [x |]; [| discriminate].
      exists x. reflexivity.
    - rewrite Hdef. exists PrimFloat.zero. reflexivity. }
  destruct Hnth as [x Hx].
  destruct cell as [| n | y | s | d]; try (eexists; reflexivity).
  destruct (_ && _); [rewrite Hx; eexists; reflexivity |].
  destruct (_ && _); [rewrite Hx; eexists; reflexivity | eexists; reflexivity].
Qed.

Lemma balance_loop_ok row cells i a :
  forallb convertible row = true -> exists a', balance_loop row cells i a = Ok a'.
Proof.
  intros Hrow. revert i a. induction cells as [| c t IH]; simpl; intros i a.
  - exists a. reflexivity.
  - destruct (balance_step_ok row a i c Hrow) as [a1 H1]. rewrite H1. simpl. apply IH.
Qed.

Lemma account_rows_ok raw rows a :
  (forall r row, In r rows -> nth_error raw r = Some row -> forallb convertible row = true) ->
  exists a', account_rows raw rows a = Ok a'.
Proof.
  revert a. induction rows as [| r t IH]; simpl; intros a Hrows.
  - exists a. reflexivity.
  - assert (H1 : exists a1, account_row raw a r = Ok a1).
    { unfold account_row. destruct (nth_error raw r) as [[| c cs] |] eqn:E;
        try (exists a; reflexivity).
      apply balance_loop_ok. apply (Hrows r); [left; reflexivity | exact E]. }
    destruct H1 as [a1 H1]. rewrite H1. simpl. apply IH.
    intros r' row Hin. apply Hrows. right. exact Hin.
Qed.

Lemma extract_account_info_ok raw f :
  grid_convertible raw = true -> exists a, _extract_account_info raw f = Ok a.
Proof.
  intros Hraw. unfold _extract_account_info. destruct (account_info_rows f).
  - apply account_rows_ok. intros r row _ E.
    unfold grid_convertible in Hraw. rewrite forallb_forall in Hraw.
    apply Hraw. eapply nth_error_In. exact E.
  - exists empty_account. reflexivity.
Qed.



(** ** C1 and C10: failures of the transform *)






Lemma registered_profiles (k : string) (f : FormatInfo) :
  In (k, f) bank_formats -> k <> "GENERIC" ->
  f = FCMB_FORMAT_1 \/ f = GTB_ODS_FORMAT.
Proof.
  intros [H | [H | [H | []]]] Hk; injection H as <- <-; auto.
  contradiction Hk. reflexivity.
Qed.

Lemma py_index_out_of_range {A : Type} (l : list A) (i : Z) :
  0 <= i -> Z.of_nat (List.length l) < i + 1 ->
  py_index l i = Raise (IndexError "list index out of range").
Proof.
  intros H0 Hlen. unfold py_index, py_get.
  destruct (0 <=? i) eqn:E; [| apply Z.leb_gt in E; lia].
  assert (Hnone : nth_error l (Z.to_nat i) = None) by (apply nth_error_None; lia).
  rewrite Hnone. reflexivity.
Qed.




(** ** C2: detection priority *)

(** C2: format detection goes through the registered profiles other than
    GENERIC in registration order and returns the first one all of whose
    identifying substrings, lower-cased, occur in the search text (the cells
    of the first 20 rows that are not None, as text, joined by spaces and
    lower-cased).  The generic heuristic is reached exactly when no
    registered profile fully matches, so a grid that holds a known profile's
    tokens is assigned a registered profile whatever generic detection would
    find. *)
Theorem detect_format_first_full_match (raw_data : Grid) :
  (forall earlier later k f,
      bank_formats = (earlier ++ (k, f) :: later)%list ->
      k <> "GENERIC" ->
      identifiers_found f (search_text raw_data) = true ->
      (forall k' f', In (k', f') earlier -> k' <> "GENERIC" ->
                     identifiers_found f' (search_text raw_data) = false) ->
      _detect_format raw_data = with_key k f)
  /\ ((forall k f, In (k, f) bank_formats -> k <> "GENERIC" ->
                   identifiers_found f (search_text raw_data) = false) ->
      _detect_format raw_data = _detect_generic_format raw_data)
  /\ (forall k f, In (k, f) bank_formats -> k <> "GENERIC" ->
        identifiers_found f (search_text raw_data) = true ->
        exists k' f', In (k', f') bank_formats /\ k' <> "GENERIC" /\
          identifiers_found f' (search_text raw_data) = true /\
          _detect_format raw_data = with_key k' f').
Proof.
  split; [| split].
  - intros earlier later k f Hsplit Hk Hf Hearlier.
    unfold _detect_format. rewrite Hsplit.
    rewrite (first_match_split earlier later k f _ Hk Hf Hearlier). reflexivity.
  - intros Hnone. unfold _detect_format.
    apply first_match_none in Hnone. rewrite Hnone. reflexivity.
  - intros k f Hin Hk Hf. unfold _detect_format.
    destruct (first_match bank_formats (search_text raw_data)) as [p |] eqn:E.
    + destruct (first_match_registered _ _ _ E) as [k' [f' [Hin' [Hk' [Hf' Hp]]]]].
      exists k', f'. auto.
    + rewrite first_match_none in E. rewrite (E k f Hin Hk) in Hf. discriminate Hf.
Qed.

(** A header row of the GTB layout also has four generic header cells; it is
    assigned the GTB profile. *)
Lemma detect_format_first_full_match_witness :
  (4 <=? header_count [CStr "TRA DATE"; CStr "REMARKS"; CStr "NUBAN";
                       CStr "DEBIT"; CStr "CREDIT"; CStr "CRNT BAL"])%nat = true
  /\ _detect_format [[CStr "TRA DATE"; CStr "REMARKS"; CStr "NUBAN";
                      CStr "DEBIT"; CStr "CREDIT"; CStr "CRNT BAL"]]
     = with_key "GTB_ODS_FORMAT" GTB_ODS_FORMAT.
Proof.
  split; [vm_compute; reflexivity |].
  refine (proj1 (detect_format_first_full_match
                   [[CStr "TRA DATE"; CStr "REMARKS"; CStr "NUBAN";
                     CStr "DEBIT"; CStr "CREDIT"; CStr "CRNT BAL"]])
                [("FCMB_FORMAT_1", FCMB_FORMAT_1)] [("GENERIC", GENERIC)]
                "GTB_ODS_FORMAT" GTB_ODS_FORMAT _ _ _ _).
  - reflexivity.
  - discriminate.
  - vm_compute. reflexivity.
  - intros k' f' [H | []] _. injection H as <- <-. vm_compute. reflexivity.
Defined.

(** ** C8: account information *)

(** C8 holds for the account number: once set, no later row changes it. *)
Lemma extract_number_keeps row_text a n :
  account_number a = Some n -> account_number (extract_number row_text a) = Some n.
Proof.
  intros H. unfold extract_number. rewrite H.
  destruct (Re.re_search account_pattern row_text); exact H.
Qed.

Lemma extract_name_keeps row_text a n :
  account_name a = Some n -> account_name (extract_name row_text a) = Some n.
Proof.
  intros H. unfold extract_name. rewrite H.
  destruct (Re.re_search name_pattern row_text); exact H.
Qed.

Lemma extract_name_number row_text a :
  account_number (extract_name row_text a) = account_number a.
Proof.
  unfold extract_name.
  destruct (Re.re_search name_pattern row_text); [| reflexivity].
  destruct (account_name a); [reflexivity |].
  destruct (negb _); reflexivity.
Qed.

Lemma extract_number_name row_text a :
  account_name (extract_number row_text a) = account_name a.
Proof.
  unfold extract_number.
  destruct (Re.re_search account_pattern row_text); [| reflexivity].
  destruct (account_number a); reflexivity.
Qed.

Lemma balance_loop_keeps row cells i a a' :
  balance_loop row cells i a = Ok a' ->
  account_number a' = account_number a /\ account_name a' = account_name a.
Proof.
  revert i a. induction cells as [| c t IH]; simpl; intros i a H.
  - injection H as <-. split; reflexivity.
  - apply bind_ok in H. destruct H as [a1 [H1 H]].
    destruct (IH _ _ H) as [Hn Hm]. rewrite Hn, Hm.
    unfold balance_step in H1. destruct c as [| n | x | s | d];
      try (injection H1 as <-; split; reflexivity).
    destruct (_ && _).
    + apply bind_ok in H1. destruct H1 as [x [_ H1]]. injection H1 as <-. split; reflexivity.
    + destruct (_ && _); [| injection H1 as <-; split; reflexivity].
      apply bind_ok in H1. destruct H1 as [x [_ H1]]. injection H1 as <-. split; reflexivity.
Qed.

Lemma account_rows_keep raw rows a a' :
  account_rows raw rows a = Ok a' ->
  (forall n, account_number a = Some n -> account_number a' = Some n) /\
  (forall n, account_name a = Some n -> account_name a' = Some n).
Proof.
  revert a. induction rows as [| r t IH]; simpl; intros a H.
  - injection H as <-. split; auto.
  - apply bind_ok in H. destruct H as [a1 [H1 H]].
    destruct (IH _ H) as [IHn IHm].
    assert (Hstep : (forall n, account_number a = Some n -> account_number a1 = Some n) /\
                    (forall n, account_name a = Some n -> account_name a1 = Some n)).
    { unfold account_row in H1.
      destruct (nth_error raw r) as [[| c cs] |];
        try (injection H1 as <-; split; auto).
      destruct (balance_loop_keeps _ _ _ _ _ H1) as [Hn Hm]. rewrite Hn, Hm.
      split; intros n Ha.
      - rewrite (extract_name_number _ _). apply extract_number_keeps. exact Ha.
      - apply extract_name_keeps. rewrite (extract_number_name _ _). exact Ha. }
    destruct Hstep as [Sn Sm]. split; intros n Ha; [apply IHn, Sn | apply IHm, Sm]; exact Ha.
Qed.

(** C8, the balances: a later "Opening Balance" row replaces the value taken
    from an earlier one (the assignment has no guard, unlike the account
    number and the account name). *)
Lemma later_opening_balance_overwrites :
  _extract_account_info
    [[CStr "Opening Balance"; CInt 100]; [CStr "Opening Balance"; CInt 200]]
    (_detect_format [[CStr "Opening Balance"; CInt 100];
                     [CStr "Opening Balance"; CInt 200]])
  = Ok (mk_account None None (Some 200%float) None)
  /\ _extract_account_info
       [[CStr "Closing Balance"; CInt 100; CStr "Closing Balance"; CInt 200]]
       (_detect_format [[CStr "Closing Balance"; CInt 100;
                         CStr "Closing Balance"; CInt 200]])
     = Ok (mk_account None None None (Some 200%float)).
Proof.
  split; vm_compute; reflexivity.
Qed.

(** ** C6: amount standardization *)


(** ** C7: date standardization *)








(** ** The standardizer: facts shared by C3, C4, C5 and C9 *)

Lemma fill_get (hs : list string) (st : StandardTransaction) (h : string) :
  dget h (fold_left (fun st header => if dmem header st then st
                                      else dset header (CStr "") st) hs st)
  = match dget h st with
    | Some v => Some v
    | None => if has_name hs h then Some (CStr "") else None
    end.
Proof.
  revert st. induction hs as [| x t IH]; intros st; cbn [fold_left].
  - simpl. destruct (dget h st); reflexivity.
  - rewrite IH. unfold has_name. cbn [existsb].
    destruct (String.eqb h x) eqn:E.
    + apply String.eqb_eq in E. subst x. unfold dmem.
      destruct (dget h st) as [v |] eqn:G; [rewrite G; reflexivity |].
      rewrite dget_dset_same. reflexivity.
    + assert (Hne : h <> x) by (intros ->; rewrite String.eqb_refl in E; discriminate E).
      destruct (dmem x st); [reflexivity |].
      rewrite dget_dset_other by exact Hne. reflexivity.
Qed.

Lemma backfill_get (st : StandardTransaction) (h : string) :
  dget h (backfill st)
  = match dget h st with
    | Some v => Some v
    | None => if has_name standard_headers h then Some (CStr "") else None
    end.
Proof. apply fill_get. Qed.

Lemma fill_keys (hs : list string) (st : StandardTransaction) :
  NoDup (map fst st) ->
  NoDup (map fst (fold_left (fun st header => if dmem header st then st
                                              else dset header (CStr "") st) hs st)).
Proof.
  revert st. induction hs as [| x t IH]; intros st H; cbn [fold_left]; [exact H |].
  apply IH. destruct (dmem x st); [exact H | apply NoDup_keys_dset; exact H].
Qed.

Lemma fill_Forall (P : string * Cell -> Prop) (hs : list string) (st : StandardTransaction) :
  Forall P st -> (forall h, In h hs -> P (h, CStr "")) ->
  Forall P (fold_left (fun st header => if dmem header st then st
                                        else dset header (CStr "") st) hs st).
Proof.
  revert st. induction hs as [| x t IH]; intros st H Hhs; cbn [fold_left]; [exact H |].
  apply IH.
  - destruct (dmem x st); [exact H |].
    apply Forall_dset; [exact H | apply Hhs; left; reflexivity].
  - intros h Hin. apply Hhs. right. exact Hin.
Qed.

Lemma get_truthy_of (st : StandardTransaction) (k : string) (v : Cell) :
  dget k st = Some v -> get_truthy k st = truthy v.
Proof. intros H. unfold get_truthy. rewrite H. reflexivity. Qed.



Lemma backfill_present (st : StandardTransaction) (h : string) :
  In h standard_headers -> exists v, dget h (backfill st) = Some v.
Proof.
  intros Hin. rewrite backfill_get. destruct (dget h st) as [v |]; [exists v; reflexivity |].
  assert (Hh : has_name standard_headers h = true).
  { unfold has_name. apply existsb_exists. exists h. split; [exact Hin | apply String.eqb_refl]. }
  rewrite Hh. exists (CStr ""). reflexivity.
Qed.


(** ** C5: the single amount column *)



(** ** C3: the fields of a standardized transaction *)

Lemma map_header_cell_canonical (m : dict string) (c : Cell) :
  canonical_mapping m -> canonical_mapping (map_header_cell m c).
Proof.
  intros H. unfold map_header_cell. destruct c as [| n | x | s | d]; try exact H.
  cbv zeta.
  repeat match goal with
         | |- context [if ?b then _ else _] => destruct b
         end;
    try exact H; apply Forall_dset; try exact H; simpl; tauto.
Qed.

Lemma build_mapping_canonical (row : list Cell) (m : dict string) :
  canonical_mapping m -> canonical_mapping (fold_left map_header_cell row m).
Proof.
  revert m. induction row as [| c t IH]; intros m H; simpl; [exact H |].
  apply IH. apply map_header_cell_canonical. exact H.
Qed.

Lemma find_header_canonical (rows : Grid) (i : Z) :
  canonical_mapping (snd (find_header rows i)).
Proof.
  revert i. induction rows as [| row rest IH]; intros i; cbn [find_header].
  - constructor.
  - destruct row as [| c cs]; [apply IH |].
    destruct (4 <=? header_count (c :: cs))%nat; [| apply IH].
    apply build_mapping_canonical. constructor.
Qed.

Lemma canonical_by_check (m : dict string) :
  forallb (fun item => has_name standard_headers (snd item)) m = true ->
  canonical_mapping m.
Proof.
  intros H. apply Forall_forall. intros item Hin.
  rewrite forallb_forall in H. specialize (H item Hin).
  unfold has_name in H. apply existsb_exists in H.
  destruct H as [h [Hh E]]. apply String.eqb_eq in E. rewrite E. exact Hh.
Qed.

Lemma detected_mapping_canonical (raw_data : Grid) :
  canonical_mapping (mapping (_detect_format raw_data)).
Proof.
  unfold _detect_format.
  destruct (first_match bank_formats (search_text raw_data)) as [p |] eqn:E.
  - destruct (first_match_registered _ _ _ E) as [k [f [Hin [Hk [_ ->]]]]].
    destruct (registered_profiles k f Hin Hk) as [-> | ->];
      apply canonical_by_check; reflexivity.
  - unfold _detect_generic_format.
    pose proof (find_header_canonical (firstn 25 raw_data) 0) as H.
    destruct (find_header (firstn 25 raw_data) 0) as [h m]. exact H.
Qed.

Section Provenance.

Variable to_datetime : string -> Parsed.
Variable options : Options.
Variable items : dict string.
Variable transaction : RawTransaction.

Local Abbreviation sourced := (sourced to_datetime options items transaction).

Lemma apply_mapping_sourced (rest : dict string) (st st' : StandardTransaction) :
  (forall item, In item rest -> In item items) ->
  canonical_mapping rest ->
  Forall sourced st -> NoDup (map fst st) ->
  apply_mapping to_datetime options rest transaction st = Ok st' ->
  Forall sourced st' /\ NoDup (map fst st').
Proof.
  revert st. induction rest as [| [original standard] t IH]; intros st Hsub Hcanon Hst Hnd H.
  - simpl in H. injection H as <-. split; assumption.
  - cbn [apply_mapping] in H.
    assert (Hsub' : forall item, In item t -> In item items)
      by (intros item Hin; apply Hsub; right; exact Hin).
    assert (Hcanon' : canonical_mapping t) by (inversion Hcanon; assumption).
    destruct (dget original transaction) as [value |] eqn:G; [| eapply IH; eassumption].
    destruct (not_none value) eqn:N; [| eapply IH; eassumption].
    apply bind_ok in H. destruct H as [v [Hv H]].
    apply (IH (dset standard v st)); try assumption.
    + apply Forall_dset; [exact Hst |]. split.
      * inversion Hcanon as [| x l Hx Hl]. exact Hx.
      * right. left. exists original, value. cbn [fst snd].
        repeat split; try assumption. apply Hsub. left. reflexivity.
    + apply NoDup_keys_dset. exact Hnd.
Qed.

Lemma ensure_formatting_sourced (st : StandardTransaction) :
  Forall sourced st -> NoDup (map fst st) ->
  Forall sourced (ensure_formatting st) /\ NoDup (map fst (ensure_formatting st)).
Proof.
  intros Hst Hnd.
  assert (Hblank : forall h, In h standard_headers -> sourced (h, CStr "")).
  { intros h Hin. split; [exact Hin | left; reflexivity]. }
  unfold ensure_formatting.
  destruct (get_truthy "Debit" st && negb (get_truthy "Credit" st)).
  - destruct (_ && _).
    + split; [| apply NoDup_keys_dset, NoDup_keys_dset; exact Hnd].
      apply Forall_dset; [apply Forall_dset; [exact Hst |] |]; apply Hblank; simpl; tauto.
    + split; [| apply NoDup_keys_dset; exact Hnd].
      apply Forall_dset; [exact Hst |]. apply Hblank. simpl. tauto.
  - destruct (_ && _).
    + split; [| apply NoDup_keys_dset; exact Hnd].
      apply Forall_dset; [exact Hst |]. apply Hblank. simpl. tauto.
    + split; assumption.
Qed.

Lemma handle_debit_credit_sourced (st st' : StandardTransaction) :
  Forall sourced st -> NoDup (map fst st) ->
  _handle_debit_credit_logic st transaction = Ok st' ->
  Forall sourced st' /\ NoDup (map fst st').
Proof.
  intros Hst Hnd H. unfold _handle_debit_credit_logic in H.
  apply bind_ok in H. destruct H as [s1 [H1 H]]. injection H as <-.
  assert (Htext : forall h text, h = "Debit" \/ h = "Credit" -> sourced (h, CStr text)).
  { intros h text Hh. split.
    - destruct Hh as [-> | ->]; simpl; tauto.
    - right. right. split; [exact Hh | exists text; reflexivity]. }
  assert (H1' : Forall sourced s1 /\ NoDup (map fst s1)).
  { destruct (dget "Amount" transaction) as [raw_amount |];
      [| injection H1 as <-; split; assumption].
    destruct (_ && _); [| injection H1 as <-; split; assumption].
    apply bind_ok in H1. destruct H1 as [amount [_ H1]].
    destruct (PrimFloat.ltb amount 0%float); injection H1 as <-;
      (split; [| apply NoDup_keys_dset, NoDup_keys_dset; exact Hnd]);
      (apply Forall_dset; [apply Forall_dset; [exact Hst |] |]); apply Htext; tauto. }
  destruct H1' as [Hs1 Hn1]. apply ensure_formatting_sourced; assumption.
Qed.

End Provenance.

Lemma dmem_ensure_formatting (st : StandardTransaction) (h : string) :
  dmem h st = true -> dmem h (ensure_formatting st) = true.
Proof.
  intros H. unfold ensure_formatting.
  repeat match goal with
         | |- context [if ?b then _ else _] => destruct b
         end;
    rewrite ?dmem_dset, ?H, ?orb_true_r; reflexivity.
Qed.

Lemma dmem_handle_debit_credit (st st' : StandardTransaction) (tx : RawTransaction)
      (h : string) :
  _handle_debit_credit_logic st tx = Ok st' -> dmem h st = true -> dmem h st' = true.
Proof.
  intros H Hmem. unfold _handle_debit_credit_logic in H.
  apply bind_ok in H. destruct H as [s1 [H1 H]]. injection H as <-.
  apply dmem_ensure_formatting.
  destruct (dget "Amount" tx) as [raw_amount |]; [| injection H1 as <-; exact Hmem].
  destruct (_ && _); [| injection H1 as <-; exact Hmem].
  apply bind_ok in H1. destruct H1 as [amount [_ H1]].
  destruct (PrimFloat.ltb amount 0%float); injection H1 as <-;
    rewrite !dmem_dset, Hmem, !orb_true_r; reflexivity.
Qed.

(** What [standardize_one] returns: entries with a source, one per
    canonical field. *)
Lemma standardize_one_sourced to_datetime format_info options transaction standardized :
  canonical_mapping (mapping format_info) ->
  standardize_one to_datetime format_info options transaction = Ok standardized ->
  Forall (sourced to_datetime options (mapping format_info) transaction) standardized
  /\ NoDup (map fst standardized)
  /\ (forall h, In h standard_headers -> dmem h standardized = true).
Proof.
  intros Hcanon H. unfold standardize_one in H.
  apply bind_ok in H. destruct H as [mapped [Hmapped H]].
  assert (Hm : Forall (sourced to_datetime options (mapping format_info) transaction) mapped
               /\ NoDup (map fst mapped)).
  { apply (apply_mapping_sourced to_datetime options (mapping format_info) transaction
             (mapping format_info) []).
    - auto.
    - exact Hcanon.
    - constructor.
    - constructor.
    - exact Hmapped. }
  destruct Hm as [Hs Hn].
  assert (Hbs : Forall (sourced to_datetime options (mapping format_info) transaction)
                       (backfill mapped)).
  { apply fill_Forall; [exact Hs |].
    intros h Hin. split; [exact Hin | left; reflexivity]. }
  assert (Hbn : NoDup (map fst (backfill mapped))) by (apply fill_keys; exact Hn).
  destruct (handle_debit_credit_sourced _ _ _ _ _ _ Hbs Hbn H) as [Hfinal Hnd].
  repeat split; try assumption.
  intros h Hin. apply (dmem_handle_debit_credit _ _ _ _ H).
  destruct (backfill_present mapped h Hin) as [v Hv]. unfold dmem. rewrite Hv. reflexivity.
Qed.

Lemma convert_value_text to_datetime options standard value v :
  Text.contains "Date" standard || is_amount_field standard = true ->
  convert_value to_datetime options standard value = Ok v ->
  exists text, v = CStr text.
Proof.
  intros Hkind H. unfold convert_value in H.
  destruct (Text.contains "Date" standard).
  - injection H as <-. eexists. reflexivity.
  - simpl in Hkind. rewrite Hkind in H.
    apply bind_ok in H. destruct H as [text [_ H]]. injection H as <-.
    exists text. reflexivity.
Qed.

Lemma convert_value_raw to_datetime options standard value v :
  Text.contains "Date" standard || is_amount_field standard = false ->
  convert_value to_datetime options standard value = Ok v ->
  v = value.
Proof.
  intros Hkind H. unfold convert_value in H.
  apply orb_false_elim in Hkind. destruct Hkind as [Hd Ha].
  rewrite Hd, Ha in H. injection H as <-. reflexivity.
Qed.

Lemma standard_headers_NoDup : NoDup standard_headers.
Proof.
  unfold standard_headers.
  repeat (constructor; [simpl; intuition discriminate |]). constructor.
Qed.

Lemma dmem_get {V : Type} (d : dict V) (k : string) :
  dmem k d = true -> exists v, dget k d = Some v.
Proof.
  unfold dmem. destruct (dget k d) as [v |]; [exists v; reflexivity | discriminate].
Qed.

(** C3 (amended): a standardized transaction has exactly the seven
    canonical fields as keys, none absent.  Tran Date, Value Date, Debit,
    Credit and Balance hold text.  Ref. No and Transaction Details hold
    either the empty string or the raw cell of a mapped column, unchanged
    (not coerced to text).  A field other than Debit and Credit with no
    source value in the raw transaction holds the empty string. *)
Theorem standardized_transaction_fields
        (to_datetime : string -> Parsed) (raw_data : Grid) (options : Options)
        (transaction : RawTransaction) (standardized : StandardTransaction) :
  standardize_one to_datetime (_detect_format raw_data) options transaction
  = Ok standardized ->
  Permutation (map fst standardized) standard_headers
  /\ (forall h, In h standard_headers -> exists v, dget h standardized = Some v)
  /\ (forall h, In h ["Tran Date"; "Value Date"; "Debit"; "Credit"; "Balance"] ->
        exists text, dget h standardized = Some (CStr text))
  /\ (forall h, In h ["Ref. No"; "Transaction Details"] ->
        dget h standardized = Some (CStr "")
        \/ exists original value,
             In (original, h) (mapping (_detect_format raw_data)) /\
             dget original transaction = Some value /\ value <> CNone /\
             dget h standardized = Some value)
  /\ (forall h, In h ["Tran Date"; "Value Date"; "Ref. No"; "Transaction Details"; "Balance"] ->
        (forall original, In (original, h) (mapping (_detect_format raw_data)) ->
                          dget original transaction = None) ->
        dget h standardized = Some (CStr "")).
Proof.
  intros H.
  destruct (standardize_one_sourced _ _ _ _ _ (detected_mapping_canonical raw_data) H)
    as [Hsourced [Hnd Hall]].
  rewrite Forall_forall in Hsourced.
  assert (Hget : forall h, In h standard_headers ->
            exists v, dget h standardized = Some v /\
                      sourced to_datetime options (mapping (_detect_format raw_data))
                              transaction (h, v)).
  { intros h Hin. destruct (dmem_get _ _ (Hall h Hin)) as [v Hv].
    exists v. split; [exact Hv |]. apply Hsourced. apply dget_In. exact Hv. }
  split; [| split; [| split; [| split]]].
  - apply NoDup_Permutation; [exact Hnd | exact standard_headers_NoDup |].
    intros h. split.
    + intros Hin. apply in_map_iff in Hin. destruct Hin as [[k v] [<- Hin]].
      exact (proj1 (Hsourced _ Hin)).
    + intros Hin. apply dmem_keys. apply Hall. exact Hin.
  - intros h Hin. destruct (Hget h Hin) as [v [Hv _]]. exists v. exact Hv.
  - intros h Hin.
    assert (Hstd : In h standard_headers) by (simpl in *; tauto).
    assert (Hkind : Text.contains "Date" h || is_amount_field h = true)
      by (simpl in Hin; repeat (destruct Hin as [<- | Hin]; [reflexivity |]); contradiction).
    destruct (Hget h Hstd) as [v [Hv [_ Hsrc]]]. cbn [fst snd] in Hsrc.
    destruct Hsrc as [-> | [[original [value [_ [_ [_ Hc]]]]] | [_ [text ->]]]].
    + exists "". exact Hv.
    + destruct (convert_value_text _ _ _ _ _ Hkind Hc) as [text ->]. exists text. exact Hv.
    + exists text. exact Hv.
  - intros h Hin.
    assert (Hstd : In h standard_headers) by (simpl in *; tauto).
    assert (Hkind : Text.contains "Date" h || is_amount_field h = false)
      by (simpl in Hin; repeat (destruct Hin as [<- | Hin]; [reflexivity |]); contradiction).
    destruct (Hget h Hstd) as [v [Hv [_ Hsrc]]]. cbn [fst snd] in Hsrc.
    destruct Hsrc as [-> | [[original [value [Hmap [Hraw [Hnn Hc]]]]] | [Hdc _]]].
    + left. exact Hv.
    + right. exists original, value.
      rewrite (convert_value_raw _ _ _ _ _ Hkind Hc) in Hv.
      repeat split; try assumption. intros ->. discriminate Hnn.
    + exfalso. simpl in Hin.
      destruct Hdc as [-> | ->]; repeat (destruct Hin as [Hin | Hin]; [discriminate Hin |]);
        contradiction.
  - intros h Hin Hnone.
    assert (Hstd : In h standard_headers) by (simpl in *; tauto).
    destruct (Hget h Hstd) as [v [Hv [_ Hsrc]]]. cbn [fst snd] in Hsrc.
    destruct Hsrc as [-> | [[original [value [Hmap [Hraw _]]]] | [Hdc _]]].
    + exact Hv.
    + rewrite (Hnone original Hmap) in Hraw. discriminate Hraw.
    + exfalso. simpl in Hin.
      destruct Hdc as [-> | ->]; repeat (destruct Hin as [Hin | Hin]; [discriminate Hin |]);
        contradiction.
Qed.

Lemma standardized_transaction_fields_witness :
  Permutation
    (map fst [("Tran Date", CStr "05/03/2024"); ("Transaction Details", CStr "POS purchase");
              ("Debit", CStr "500.00"); ("Balance", CStr "1500.00");
              ("Value Date", CStr ""); ("Ref. No", CStr ""); ("Credit", CStr "")])
    standard_headers.
Proof.
  refine (proj1 (standardized_transaction_fields iso_to_datetime
                   [[CStr "Date"; CStr "Narration"; CStr "Debit"; CStr "Credit";
                     CStr "Balance"; CStr "Ref"]]
                   no_options
                   [("Date", CStr "2024-03-05"); ("Narration", CStr "POS purchase");
                    ("Debit", CFloat 500%float); ("Balance", CFloat 1500%float)]
                   _ _)).
  vm_compute. reflexivity.
Defined.

(** C3 (as stated) fails: a numeric cell under a reference column is copied
    as it is, so the Ref. No of the standardized transaction is the integer
    12345 and not text. *)
Lemma reference_number_not_text :
  transform_statement iso_to_datetime "statement.xlsx" "2024-01-01T00:00:00"
    sample_grid_bare no_options = Success sample_result_bare
  /\ map (dget "Ref. No") (transactions sample_result_bare)
     = [Some (CInt 12345); Some (CStr "")].
Proof.
  split; vm_compute; reflexivity.
Qed.

(** ** C4: row order *)

Definition row_transaction (headers row : list Cell) : RawTransaction :=
  build_transaction headers row 0 [].

Definition qualifying (headers row : list Cell) : bool :=
  row_present row && has_date_or_amount row
  && negb (is_empty (row_transaction headers row)).

Lemma float_above_is_nonzero (x : float) :
  PrimFloat.ltb 1000%float x = true -> PrimFloat.eqb x PrimFloat.zero = false.
Proof.
  intros Hx. destruct (PrimFloat.eqb x PrimFloat.zero) eqn:E; [| reflexivity].
  exfalso. rewrite eqb_spec in E. rewrite ltb_spec in Hx.
  destruct (Prim2SF x) as [s | s | | s m e]; try destruct s;
    vm_compute in E; vm_compute in Hx; discriminate.
Qed.

Lemma date_or_amount_truthy (c : Cell) :
  _is_date c || _is_amount c = true -> truthy c = true.
Proof.
  destruct c as [| n | x | s | d]; cbn [_is_date _is_amount truthy].
  - discriminate.
  - intros H. apply orb_true_iff in H. destruct H as [H | H]; [| exact H].
    apply andb_true_iff in H. destruct H as [H _]. apply Z.ltb_lt in H.
    destruct (n =? 0) eqn:E; [apply Z.eqb_eq in E; lia | reflexivity].
  - intros H. apply orb_true_iff in H. destruct H as [H | H]; [| exact H].
    apply andb_true_iff in H. destruct H as [H _].
    rewrite (float_above_is_nonzero x H). reflexivity.
  - destruct s as [| a t]; [vm_compute; discriminate | reflexivity].
  - reflexivity.
Qed.

Lemma has_date_or_amount_row (row : list Cell) :
  has_date_or_amount row = true ->
  is_empty row = false /\ row_has_value row = true /\ row_present row = true.
Proof.
  intros H. unfold has_date_or_amount in H. apply existsb_exists in H.
  destruct H as [c [Hin Hc]]. apply filter_In in Hin. destruct Hin as [Hin Hnn].
  repeat split.
  - destruct row; [contradiction Hin | reflexivity].
  - unfold row_has_value. apply existsb_exists. exists c. split.
    + apply filter_In. split; assumption.
    + apply date_or_amount_truthy. exact Hc.
  - unfold row_present. apply existsb_exists. exists c. split; assumption.
Qed.

(** The loop over the rows appends, in order, the transaction of every
    qualifying row. *)
Lemma scan_rows_spec (headers : list Cell) (rows : Grid) (acc : list RawTransaction) :
  scan_rows headers rows acc
  = (acc ++ map (row_transaction headers) (filter (qualifying headers) rows))%list.
Proof.
  revert acc. induction rows as [| row rest IH]; intros acc; cbn [scan_rows filter map].
  - rewrite app_nil_r. reflexivity.
  - unfold qualifying at 1.
    destruct (has_date_or_amount row) eqn:Hd.
    + destruct (has_date_or_amount_row row Hd) as [He [Hv Hp]].
      rewrite He, Hv, Hp. cbn [orb negb andb].
      fold (row_transaction headers row).
      destruct (is_empty (row_transaction headers row)); cbn [negb map].
      * apply IH.
      * rewrite IH, <- app_assoc. reflexivity.
    + rewrite andb_false_r. cbn [andb].
      destruct (is_empty row || negb (row_has_value row)); apply IH.
Qed.

Lemma skipn_nth_error {A : Type} (l : list A) (i : nat) (a : A) :
  nth_error l i = Some a -> skipn i l = a :: skipn (S i) l.
Proof.
  revert i. induction l as [| x t IH]; intros i H.
  - destruct i; discriminate H.
  - destruct i as [| i]; simpl in *.
    + injection H as <-. reflexivity.
    + apply IH. exact H.
Qed.

Lemma py_index_nat {A : Type} (l : list A) (i : nat) (a : A) :
  nth_error l i = Some a -> py_index l (Z.of_nat i) = Ok a.
Proof.
  intros H. unfold py_index, py_get.
  destruct (0 <=? Z.of_nat i) eqn:E; [| apply Z.leb_gt in E; lia].
  rewrite Nat2Z.id, H. reflexivity.
Qed.

Lemma rows_from (raw_data : Grid) (n lo : nat) :
  (lo + n = List.length raw_data)%nat ->
  map_result (py_index raw_data) (zrange (Z.of_nat lo) n) = Ok (skipn lo raw_data).
Proof.
  revert lo. induction n as [| n IH]; intros lo Hlen; cbn [zrange map_result].
  - rewrite skipn_all2 by lia. reflexivity.
  - destruct (nth_error raw_data lo) as [row |] eqn:E;
      [| apply nth_error_None in E; lia].
    rewrite (py_index_nat _ _ _ E). cbn [bind].
    replace (Z.of_nat lo + 1) with (Z.of_nat (S lo)) by lia.
    rewrite IH by lia. cbn [bind]. rewrite (skipn_nth_error _ _ _ E). reflexivity.
Qed.

Lemma extract_transactions_spec (raw_data : Grid) (format_info : FormatInfo)
      (h : Z) (headers : list Cell) :
  header_row format_info = HInt h -> 0 <= h ->
  nth_error raw_data (Z.to_nat h) = Some headers ->
  _extract_transactions raw_data format_info
  = Ok (map (row_transaction headers)
            (filter (qualifying headers) (skipn (S (Z.to_nat h)) raw_data))).
Proof.
  intros Hrow Hh Hheaders. unfold _extract_transactions. rewrite Hrow.
  destruct (h =? -1) eqn:E; [apply Z.eqb_eq in E; lia |].
  assert (Hlt : (Z.to_nat h < List.length raw_data)%nat)
    by (apply nth_error_Some; congruence).
  replace h with (Z.of_nat (Z.to_nat h)) at 1 by lia.
  rewrite (py_index_nat _ _ _ Hheaders). cbn [bind].
  replace (h + 1) with (Z.of_nat (S (Z.to_nat h))) by lia.
  rewrite rows_from by lia. cbn [bind].
  rewrite scan_rows_spec. reflexivity.
Qed.

Lemma find_header_bound (rows : Grid) (i : Z) :
  0 <= i -> fst (find_header rows i) = -1 \/ 0 <= fst (find_header rows i).
Proof.
  revert i. induction rows as [| row rest IH]; intros i Hi; cbn [find_header].
  - left. reflexivity.
  - destruct row as [| c cs]; [apply IH; lia |].
    destruct (4 <=? header_count (c :: cs))%nat; [right; exact Hi | apply IH; lia].
Qed.

Lemma detect_header_row (raw_data : Grid) :
  exists h, header_row (_detect_format raw_data) = HInt h /\ (h = -1 \/ 0 <= h).
Proof.
  unfold _detect_format.
  destruct (first_match bank_formats (search_text raw_data)) as [p |] eqn:E.
  - destruct (first_match_registered _ _ _ E) as [k [f [Hin [Hk [_ ->]]]]].
    destruct (registered_profiles k f Hin Hk) as [-> | ->];
      [exists 16 | exists 2]; split; try reflexivity; right; lia.
  - unfold _detect_generic_format.
    pose proof (find_header_bound (firstn 25 raw_data) 0 (Z.le_refl 0)) as H.
    destruct (find_header (firstn 25 raw_data) 0) as [h m].
    exists h. split; [reflexivity | exact H].
Qed.

Lemma Forall2_map_left {A B C : Type} (f : A -> B) (R : B -> C -> Prop)
      (l : list A) (l' : list C) :
  Forall2 R (map f l) l' -> Forall2 (fun a c => R (f a) c) l l'.
Proof.
  revert l'. induction l as [| a t IH]; intros l' H; inversion H; subst; constructor.
  - assumption.
  - apply IH. assumption.
Qed.


(** The transactions of a successful transform are the standardizations
    of the qualifying rows below the resolved header, in order. *)
Lemma transform_success_rows
      (to_datetime : string -> Parsed) (file_name now : string)
      (raw_data : Grid) (options : Options) (r : Transformed) :
  transform_statement to_datetime file_name now raw_data options = Success r ->
  exists h headers,
    header_row (_detect_format raw_data) = HInt h /\ 0 <= h /\
    nth_error raw_data (Z.to_nat h) = Some headers /\
    Forall2 (fun row st =>
               standardize_one to_datetime (_detect_format raw_data) options
                               (row_transaction headers row) = Ok st)
            (filter (qualifying headers) (skipn (S (Z.to_nat h)) raw_data))
            (transactions r).
Proof.
  intros H. unfold transform_statement in H.
  destruct (transform_body to_datetime file_name now raw_data options) as [r' | e] eqn:E;
    [| discriminate H].
  injection H as <-. unfold transform_body in E.
  apply bind_ok in E. destruct E as [info [_ E]].
  apply bind_ok in E. destruct E as [raw_transactions [Hextract E]].
  apply bind_ok in E. destruct E as [standardized [Hstd E]].
  injection E as <-. cbn [transactions].
  destruct (detect_header_row raw_data) as [h [Hrow Hh]].
  assert (H0 : 0 <= h).
  { destruct Hh as [-> | Hh]; [| exact Hh].
    unfold _extract_transactions in Hextract. rewrite Hrow in Hextract.
    discriminate Hextract. }
  destruct (nth_error raw_data (Z.to_nat h)) as [headers |] eqn:Hheaders.
  - exists h, headers.
    rewrite (extract_transactions_spec _ _ _ _ Hrow H0 Hheaders) in Hextract.
    injection Hextract as <-.
    apply map_result_ok in Hstd. apply Forall2_map_left in Hstd.
    repeat split; assumption.
  - exfalso. apply nth_error_None in Hheaders.
    unfold _extract_transactions in Hextract. rewrite Hrow in Hextract.
    destruct (h =? -1); [discriminate Hextract |].
    rewrite py_index_out_of_range in Hextract by lia. discriminate Hextract.
Qed.


(** The transform succeeds on a grid whose header row is resolved and whose
    cells are convertible. *)
Lemma In_dset {V : Type} (d : dict V) (k k' : string) (v v' : V) :
  In (k, v) (dset k' v' d) -> (k, v) = (k', v') \/ In (k, v) d.
Proof.
  induction d as [| [k0 v0] t IH]; simpl.
  - intros [H | []]. left. symmetry. exact H.
  - destruct (String.eqb k0 k') eqn:E; simpl.
    + apply String.eqb_eq in E. subst k0.
      intros [H | H]; [left; symmetry; exact H | right; right; exact H].
    + intros [H | H]; [right; left; exact H |].
      destruct (IH H) as [H' | H']; [left; exact H' | right; right; exact H'].
Qed.

Lemma build_transaction_values (headers row : list Cell) (j : nat) (acc : RawTransaction)
      (k : string) (v : Cell) :
  In (k, v) (build_transaction headers row j acc) -> In (k, v) acc \/ In v row.
Proof.
  revert j acc. induction headers as [| header rest IH]; intros j acc H;
    cbn [build_transaction] in H; [left; exact H |].
  apply IH in H. destruct H as [H | H]; [| right; exact H].
  destruct (truthy header); [| left; exact H].
  destruct (nth_error row j) as [cell |] eqn:E; [| left; exact H].
  destruct (not_none cell); [| left; exact H].
  apply In_dset in H. destruct H as [H | H]; [| left; exact H].
  injection H as _ ->. right. eapply nth_error_In. exact E.
Qed.

Lemma standardize_amount_ok (value : Cell) :
  convertible value = true -> exists text, _standardize_amount value = Ok text.
Proof.
  unfold convertible. intros H.
  destruct (_parse_amount value) as [x |] eqn:E; [| discriminate H].
  destruct value as [| n | y | s | d]; try (eexists; reflexivity);
    try (unfold _standardize_amount; rewrite E; eexists; reflexivity).
  destruct s; [eexists; reflexivity |].
  unfold _standardize_amount. rewrite E. eexists. reflexivity.
Qed.

Lemma apply_mapping_ok to_datetime options (items : dict string)
      (transaction : RawTransaction) (st : StandardTransaction) :
  (forall k v, In (k, v) transaction -> convertible v = true) ->
  exists st', apply_mapping to_datetime options items transaction st = Ok st'.
Proof.
  intros Hconv. revert st. induction items as [| [original standard] t IH]; intros st;
    cbn [apply_mapping]; [exists st; reflexivity |].
  destruct (dget original transaction) as [value |] eqn:G; [| apply IH].
  destruct (not_none value); [| apply IH].
  assert (Hv : exists v, convert_value to_datetime options standard value = Ok v).
  { unfold convert_value. destruct (Text.contains "Date" standard); [eexists; reflexivity |].
    destruct (is_amount_field standard); [| eexists; reflexivity].
    destruct (standardize_amount_ok value) as [text Htext].
    - apply (Hconv original). apply dget_In. exact G.
    - rewrite Htext. eexists. reflexivity. }
  destruct Hv as [v Hv]. rewrite Hv. cbn [bind]. apply IH.
Qed.

Lemma standardize_one_ok to_datetime format_info options (transaction : RawTransaction) :
  (forall k v, In (k, v) transaction -> convertible v = true) ->
  exists st, standardize_one to_datetime format_info options transaction = Ok st.
Proof.
  intros Hconv. unfold standardize_one.
  destruct (apply_mapping_ok to_datetime options (mapping format_info) transaction []
                             Hconv) as [mapped Hmapped].
  rewrite Hmapped. cbn [bind]. unfold _handle_debit_credit_logic.
  destruct (dget "Amount" transaction) as [raw_amount |] eqn:G;
    [| eexists; reflexivity].
  destruct (_ && _); [| eexists; reflexivity].
  pose proof (Hconv "Amount" raw_amount (dget_In _ _ _ G)) as Hc.
  unfold convertible in Hc. destruct (_parse_amount raw_amount) as [amount |];
    [| discriminate Hc].
  cbn [bind]. destruct (PrimFloat.ltb amount 0%float); eexists; reflexivity.
Qed.

Lemma transform_succeeds to_datetime file_name now (raw_data : Grid) options
      (h : Z) (headers : list Cell) :
  grid_convertible raw_data = true ->
  header_row (_detect_format raw_data) = HInt h -> 0 <= h ->
  nth_error raw_data (Z.to_nat h) = Some headers ->
  exists r, transform_statement to_datetime file_name now raw_data options = Success r.
Proof.
  intros Hconv Hrow Hh Hheaders. unfold transform_statement, transform_body.
  destruct (extract_account_info_ok raw_data (_detect_format raw_data) Hconv) as [a Ha].
  rewrite Ha. cbn [bind].
  rewrite (extract_transactions_spec _ _ _ _ Hrow Hh Hheaders). cbn [bind].
  unfold _standardize_transactions.
  destruct (map_result_all
              (standardize_one to_datetime (_detect_format raw_data) options)
              (map (row_transaction headers)
                   (filter (qualifying headers) (skipn (S (Z.to_nat h)) raw_data))))
    as [stds Hstds].
  - intros tx Htx. apply in_map_iff in Htx. destruct Htx as [row [<- Hin]].
    apply standardize_one_ok. intros k v Hkv.
    apply build_transaction_values in Hkv. destruct Hkv as [[] | Hv].
    apply filter_In in Hin. destruct Hin as [Hin _].
    assert (Hraw : In row raw_data).
    { rewrite <- (firstn_skipn (S (Z.to_nat h)) raw_data). apply in_or_app. right. exact Hin. }
    unfold grid_convertible in Hconv. rewrite forallb_forall in Hconv.
    specialize (Hconv row Hraw). rewrite forallb_forall in Hconv. apply Hconv. exact Hv.
  - rewrite Hstds. cbn [bind]. eexists. reflexivity.
Qed.


(** ** C9: the metadata sheet *)

Lemma has_name_app (names : list string) (k h : string) :
  has_name (names ++ [k])%list h = has_name names h || String.eqb h k.
Proof.
  unfold has_name. rewrite existsb_app. simpl. rewrite orb_false_r. reflexivity.
Qed.

Lemma add_columns_has (record : StandardTransaction) (cols : list string) (h : string) :
  has_name (fold_left (fun cols item => if has_name cols (fst item) then cols
                                        else (cols ++ [fst item])%list) record cols) h
  = has_name cols h || dmem h record.
Proof.
  revert cols. induction record as [| [k v] t IH]; intros cols; cbn [fold_left].
  - unfold dmem. simpl. rewrite orb_false_r. reflexivity.
  - rewrite IH. cbn [fst]. unfold dmem at 2. cbn [dget].
    fold (dmem h t). rewrite (String.eqb_sym k h).
    destruct (has_name cols k) eqn:E.
    + destruct (String.eqb h k) eqn:Ehk.
      * apply String.eqb_eq in Ehk. subst k. rewrite E. reflexivity.
      * reflexivity.
    + rewrite has_name_app. destruct (String.eqb h k); rewrite ?orb_true_r, ?orb_false_r;
        reflexivity.
Qed.

Lemma frame_columns_has (records : list StandardTransaction) (cols : list string)
      (h : string) :
  has_name (fold_left
              (fun cols record =>
                 fold_left (fun cols item => if has_name cols (fst item) then cols
                                             else (cols ++ [fst item])%list)
                           record cols)
              records cols) h
  = has_name cols h || existsb (dmem h) records.
Proof.
  revert cols. induction records as [| record rest IH]; intros cols; cbn [fold_left existsb].
  - rewrite orb_false_r. reflexivity.
  - rewrite IH, add_columns_has, orb_assoc. reflexivity.
Qed.

Lemma filter_none {A : Type} (f : A -> bool) (l : list A) :
  (forall x, In x l -> f x = false) -> filter f l = [].
Proof.
  induction l as [| x t IH]; intros H; [reflexivity |].
  cbn [filter]. rewrite (H x (or_introl eq_refl)).
  apply IH. intros y Hy. apply H. right. exact Hy.
Qed.

Lemma transactions_frame_ok (records : list StandardTransaction) :
  records <> [] ->
  (forall record h, In record records -> In h standard_headers -> dmem h record = true) ->
  transactions_frame records
  = Ok (standard_headers,
        map (fun record => map (frame_value record) standard_headers) records).
Proof.
  intros Hne Hall. unfold transactions_frame.
  destruct records as [| record rest]; [contradiction Hne; reflexivity |].
  rewrite filter_none; [reflexivity |].
  intros h Hin. unfold frame_columns. rewrite frame_columns_has.
  cbn [existsb]. rewrite (Hall record h (or_introl eq_refl) Hin).
  rewrite orb_true_r. reflexivity.
Qed.

Lemma Forall2_In_right {A B : Type} (R : A -> B -> Prop) (l : list A) (l' : list B) (b : B) :
  Forall2 R l l' -> In b l' -> exists a, In a l /\ R a b.
Proof.
  intros H. induction H as [| x y t t' Hxy Ht IH]; intros Hin; [contradiction Hin |].
  destruct Hin as [<- | Hin].
  - exists x. split; [left; reflexivity | exact Hxy].
  - destruct (IH Hin) as [a [Ha HR]]. exists a. split; [right; exact Ha | exact HR].
Qed.

(** Every transaction of a successful transform has the seven fields. *)
Lemma transformed_records_complete to_datetime file_name now raw_data options r :
  transform_statement to_datetime file_name now raw_data options = Success r ->
  forall record h, In record (transactions r) -> In h standard_headers ->
                   dmem h record = true.
Proof.
  intros H record h Hrecord Hh.
  destruct (transform_success_rows _ _ _ _ _ _ H)
    as [i [headers [_ [_ [_ Hall]]]]].
  destruct (Forall2_In_right _ _ _ _ Hall Hrecord) as [row [_ Hrow]].
  destruct (standardize_one_sourced _ _ _ _ _ (detected_mapping_canonical raw_data) Hrow)
    as [_ [_ Hkeys]].
  apply Hkeys. exact Hh.
Qed.

(** C9 (amended): for a successful transform result that has at least one
    transaction and a non-empty account information, when metadata inclusion
    is requested (include_metadata true, or absent, which defaults to true),
    the projector writes the transactions with the seven canonical columns in
    their fixed order and a metadata table of label/value rows with the exact
    labels 'Account Number', 'Account Name', 'Opening Balance', 'Closing
    Balance', 'Original Format', 'Records Processed' and 'Processed At'. *)
Theorem metadata_sheet_written
        (to_datetime : string -> Parsed) (file_name now : string) (raw_data : Grid)
        (options generate_options : Options) (r : Transformed) :
  transform_statement to_datetime file_name now raw_data options = Success r ->
  transactions r <> [] ->
  account_nonempty (account_info r) = true ->
  include_metadata generate_options <> Some false ->
  generate_standardized_file r generate_options
  = Ok (mk_workbook
          (["Tran Date"; "Value Date"; "Ref. No"; "Transaction Details";
            "Debit"; "Credit"; "Balance"],
           map (fun record => map (frame_value record) standard_headers) (transactions r))
          (Some [ ("Account Information", CStr "");
                  ("Account Number", text_or_blank (account_number (account_info r)));
                  ("Account Name", text_or_blank (account_name (account_info r)));
                  ("Opening Balance", float_or_blank (opening_balance (account_info r)));
                  ("Closing Balance", float_or_blank (closing_balance (account_info r)));
                  ("", CStr "");
                  ("Processing Information", CStr "");
                  ("Original Format", CStr (original_format r));
                  ("Records Processed", CInt (records_processed r));
                  ("Processed At", CStr (processed_at (metadata r))) ])).
Proof.
  intros H Hne Hinfo Hrequest. unfold generate_standardized_file.
  rewrite (transactions_frame_ok _ Hne (transformed_records_complete _ _ _ _ _ _ H)).
  cbn [bind]. rewrite Hinfo.
  assert (Hreq : metadata_requested generate_options = true).
  { unfold metadata_requested. destruct (include_metadata generate_options) as [[|] |];
      [reflexivity | contradiction Hrequest; reflexivity | reflexivity]. }
  rewrite Hreq. reflexivity.
Qed.

Lemma metadata_sheet_written_witness :
  fmap metadata_sheet (generate_standardized_file sample_result no_options)
  = Ok (Some [ ("Account Information", CStr "");
               ("Account Number", CStr "1234567890");
               ("Account Name", CStr "ACME BANK PLC STATEMENT");
               ("Opening Balance", CStr "");
               ("Closing Balance", CStr "");
               ("", CStr "");
               ("Processing Information", CStr "");
               ("Original Format", CStr "Generic Bank Format");
               ("Records Processed", CInt 2);
               ("Processed At", CStr "2024-01-01T00:00:00") ]).
Proof.
  rewrite (metadata_sheet_written iso_to_datetime "statement.xlsx" "2024-01-01T00:00:00"
             sample_grid no_options no_options sample_result).
  - reflexivity.
  - vm_compute. reflexivity.
  - discriminate.
  - reflexivity.
  - discriminate.
Defined.

(** C9 (as stated) fails: the transform succeeds and metadata is requested
    by default, yet no metadata sheet is written, because no account
    information was found. *)
Lemma no_metadata_without_account_info :
  transform_statement iso_to_datetime "statement.xlsx" "2024-01-01T00:00:00"
    sample_grid_bare no_options = Success sample_result_bare
  /\ metadata_requested no_options = true
  /\ fmap metadata_sheet (generate_standardized_file sample_result_bare no_options)
     = Ok None.
Proof.
  repeat split; vm_compute; reflexivity.
Qed.

(** A successful result without transactions: the column selection of the
    projector raises before any sheet is written. *)
Lemma no_sheets_without_transactions :
  transform_statement iso_to_datetime "statement.xlsx" "2024-01-01T00:00:00"
    (firstn 3 sample_grid) no_options
  = Success (mk_transformed
               (mk_account (Some "1234567890") (Some "ACME BANK PLC STATEMENT") None None)
               [] "Generic Bank Format" 0
               (mk_metadata "statement.xlsx" "2024-01-01T00:00:00" standard_headers))
  /\ generate_standardized_file
       (mk_transformed
          (mk_account (Some "1234567890") (Some "ACME BANK PLC STATEMENT") None None)
          [] "Generic Bank Format" 0
          (mk_metadata "statement.xlsx" "2024-01-01T00:00:00" standard_headers))
       no_options
     = Raise (KeyError "Tran Date, Value Date, Ref. No, Transaction Details, Debit, Credit, Balance not in index").
Proof.
  split; vm_compute; reflexivity.
Qed.

(** * Further properties

    Properties of the code beside the claims: what detection, the
    extractors, the classifier, the standardizer and the projector do on
    every input, and what they never do. *)

(** ** Regular expressions: what a match consumes *)













(** ** Format detection *)

Lemma map_header_cell_field (m : dict string) (s : string) :
  map_header_cell m (CStr s)
  = match header_field s with
    | Some v => dset s v m
    | None => m
    end.
Proof.
  unfold header_field, map_header_cell. cbv zeta.
  destruct (String.eqb s ""); [reflexivity |].
  repeat match goal with
         | |- context [if ?b then _ else _] =>
             lazymatch b with
             | String.eqb _ _ => fail
             | _ => destruct b
             end
         end;
    cbn [dset dget]; rewrite ?String.eqb_refl; reflexivity.
Qed.

Lemma build_mapping_get (row : list Cell) (m : dict string) (s : string) :
  dget s (fold_left map_header_cell row m)
  = if has_text row s
    then match header_field s with
         | Some v => Some v
         | None => dget s m
         end
    else dget s m.
Proof.
  revert m. induction row as [| c rest IH]; intros m; [reflexivity |].
  cbn [fold_left has_text existsb]. rewrite IH. fold (has_text rest s).
  destruct c as [| n | x | t | d]; try reflexivity.
  rewrite map_header_cell_field.
  destruct (String.eqb t s) eqn:E; cbn [orb].
  - apply String.eqb_eq in E. subst t.
    destruct (header_field s) as [v |]; [| destruct (has_text rest s); reflexivity].
    rewrite dget_dset_same. destruct (has_text rest s); reflexivity.
  - apply String.eqb_neq in E.
    destruct (header_field t) as [v |]; [| reflexivity].
    rewrite dget_dset_other by (intros ->; apply E; reflexivity).
    reflexivity.
Qed.

(** X1: the column mapping of generic detection is a function of the header
    texts: a text of the header row has the entry its own wording gives it,
    wherever it stands and whatever the other headers are, and nothing else
    has an entry. *)
Theorem generic_mapping_by_header_text (row : list Cell) (s : string) :
  dget s (fold_left map_header_cell row [])
  = if has_text row s then header_field s else None.
Proof.
  rewrite build_mapping_get. destruct (has_text row s); [| reflexivity].
  destruct (header_field s); reflexivity.
Qed.

Lemma contains_any (w : string) (words : list string) (text : string) :
  In w words -> Text.contains w text = true -> any_in words text = true.
Proof.
  intros Hin Hc. unfold any_in. apply existsb_exists. exists w. split; assumption.
Qed.

Lemma any_in_sub (words words' : list string) (text : string) :
  (forall w, In w words -> In w words') ->
  any_in words text = true -> any_in words' text = true.
Proof.
  unfold any_in. intros Hsub H. apply existsb_exists in H. destruct H as [w [Hin Hc]].
  apply existsb_exists. exists w. split; [apply Hsub; exact Hin | exact Hc].
Qed.

(** X2: the two word lists of generic detection agree except on reference
    columns: a header text that gets a mapping entry for a field other than
    [Ref. No] is counted by the header search. *)
Theorem mapped_headers_are_counted (s v : string) :
  header_field s = Some v -> v <> "Ref. No" -> is_header_cell (CStr s) = true.
Proof.
  unfold header_field, map_header_cell, is_header_cell. cbv zeta.
  destruct (String.eqb s "") eqn:Es; [discriminate |]. cbn [negb andb].
  destruct (Text.contains "date" (Text.lower s) && negb (Text.contains "value" (Text.lower s)))
    eqn:E1.
  { intros _ _. apply andb_prop in E1. destruct E1 as [E1 _].
    apply (contains_any "date"); [cbn; tauto | exact E1]. }
  destruct (Text.contains "value" (Text.lower s) && Text.contains "date" (Text.lower s)) eqn:E2.
  { intros _ _. apply andb_prop in E2. destruct E2 as [_ E2].
    apply (contains_any "date"); [cbn; tauto | exact E2]. }
  destruct (any_in ["description"; "narration"; "remarks"] (Text.lower s)) eqn:E3.
  { intros _ _. revert E3. apply any_in_sub. cbn. tauto. }
  destruct (any_in ["debit"; "withdrawal"] (Text.lower s)) eqn:E4.
  { intros _ _. revert E4. apply any_in_sub. cbn. tauto. }
  destruct (any_in ["credit"; "deposit"] (Text.lower s)) eqn:E5.
  { intros _ _. revert E5. apply any_in_sub. cbn. tauto. }
  destruct (Text.contains "balance" (Text.lower s)) eqn:E6.
  { intros _ _. apply (contains_any "balance"); [cbn; tauto | exact E6]. }
  destruct (any_in ["reference"; "ref"] (Text.lower s)) eqn:E7.
  { cbn [dset dget]. rewrite String.eqb_refl. intros H Hv. injection H as <-.
    contradiction Hv. reflexivity. }
  discriminate.
Qed.

Lemma mapped_headers_are_counted_witness :
  is_header_cell (CStr "Withdrawal (NGN)") = true.
Proof.
  apply (mapped_headers_are_counted "Withdrawal (NGN)" "Debit").
  - vm_compute. reflexivity.
  - discriminate.
Defined.

Lemma find_header_spec (rows : Grid) (i : Z) :
  (find_header rows i = (-1, []) /\
   forall row, In row rows -> (header_count row < 4)%nat)
  \/ exists k row,
       find_header rows i = (i + Z.of_nat k, fold_left map_header_cell row []) /\
       nth_error rows k = Some row /\ (4 <= header_count row)%nat /\
       (forall j earlier, (j < k)%nat -> nth_error rows j = Some earlier ->
                          (header_count earlier < 4)%nat).
Proof.
  revert i. induction rows as [| row rest IH]; intros i.
  - left. split; [reflexivity | intros row []].
  - assert (Hskip : (header_count row < 4)%nat ->
                    find_header (row :: rest) i = find_header rest (i + 1)).
    { intros Hlt. cbn [find_header]. destruct row as [| c cs]; [reflexivity |].
      destruct (4 <=? header_count (c :: cs))%nat eqn:E; [| reflexivity].
      apply Nat.leb_le in E. lia. }
    destruct (4 <=? header_count row)%nat eqn:E.
    + right. exists 0%nat, row. apply Nat.leb_le in E. repeat split.
      * cbn [find_header]. destruct row as [| c cs]; [cbn in E; lia |].
        apply Nat.leb_le in E. rewrite E. f_equal. cbn. lia.
      * exact E.
      * intros j earlier Hj. lia.
    + apply Nat.leb_gt in E. rewrite (Hskip E).
      destruct (IH (i + 1)) as [[Hnone Hall] | [k [r [Hfound [Hnth [Hcount Hearlier]]]]]].
      * left. split; [exact Hnone |]. intros r [<- | Hin]; [exact E | apply Hall; exact Hin].
      * right. exists (S k), r. repeat split.
        -- rewrite Hfound. f_equal. lia.
        -- exact Hnth.
        -- exact Hcount.
        -- intros j earlier Hj Hnth'. destruct j as [| j]; cbn in Hnth'.
           ++ injection Hnth' as <-. exact E.
           ++ apply (Hearlier j); [lia | exact Hnth'].
Qed.

(** X3: when generic detection resolves a header row, it is the first row
    among the first 25 that holds at least four header cells: the index is
    within the grid and below 25, every row above it holds fewer than four,
    and the column mapping is made from that row alone. *)
Theorem generic_header_row_is_first_candidate (raw_data : Grid) (h : Z) :
  header_row (_detect_generic_format raw_data) = HInt h -> 0 <= h ->
  h < 25 /\
  exists row,
    nth_error raw_data (Z.to_nat h) = Some row /\
    (4 <= header_count row)%nat /\
    mapping (_detect_generic_format raw_data) = fold_left map_header_cell row [] /\
    (forall j earlier, (j < Z.to_nat h)%nat -> nth_error raw_data j = Some earlier ->
                       (header_count earlier < 4)%nat).
Proof.
  unfold _detect_generic_format. intros Hrow Hh.
  destruct (find_header_spec (firstn 25 raw_data) 0)
    as [[Hnone _] | [k [row [Hfound [Hnth [Hcount Hearlier]]]]]].
  - rewrite Hnone in Hrow. cbn in Hrow. injection Hrow as <-. lia.
  - rewrite Hfound in Hrow |- *. cbn [header_row mapping] in Hrow |- *.
    assert (Hhk : h = Z.of_nat k) by (injection Hrow as <-; lia).
    subst h. clear Hrow. rewrite Nat2Z.id.
    rewrite nth_error_firstn in Hnth.
    destruct (k <? 25)%nat eqn:Ek; [| discriminate Hnth]. apply Nat.ltb_lt in Ek.
    split; [lia |]. exists row. repeat split; try assumption.
    intros j earlier Hj Hnth'. apply (Hearlier j); [exact Hj |].
    rewrite nth_error_firstn.
    assert (Hj25 : (j <? 25)%nat = true) by (apply Nat.ltb_lt; lia).
    rewrite Hj25. exact Hnth'.
Qed.

Lemma generic_header_row_is_first_candidate_witness :
  2 < 25 /\
  exists row,
    nth_error sample_grid (Z.to_nat 2) = Some row /\
    (4 <= header_count row)%nat /\
    mapping (_detect_generic_format sample_grid) = fold_left map_header_cell row [] /\
    (forall j earlier, (j < Z.to_nat 2)%nat -> nth_error sample_grid j = Some earlier ->
                       (header_count earlier < 4)%nat).
Proof.
  apply (generic_header_row_is_first_candidate sample_grid 2).
  - vm_compute. reflexivity.
  - lia.
Defined.

(** X4: format detection reads the first 25 rows only (the first 20 for the
    registered profiles): the rows below never change the detected format,
    its header row or its column mapping. *)
Theorem detect_format_reads_first_rows (raw_data : Grid) :
  search_text raw_data = search_text (firstn 20 raw_data)
  /\ _detect_format raw_data = _detect_format (firstn 25 raw_data).
Proof.
  assert (H20 : search_text raw_data = search_text (firstn 20 raw_data)).
  { unfold search_text. rewrite firstn_firstn. reflexivity. }
  split; [exact H20 |].
  unfold _detect_format, _detect_generic_format, search_text.
  rewrite !firstn_firstn. reflexivity.
Qed.

Lemma generic_header_in_grid (raw_data : Grid) (h : Z) :
  header_row (_detect_generic_format raw_data) = HInt h ->
  h = -1 \/ 0 <= h < Z.min 25 (Z.of_nat (List.length raw_data)).
Proof.
  unfold _detect_generic_format. intros Hrow.
  destruct (find_header_spec (firstn 25 raw_data) 0)
    as [[Hnone _] | [k [row [Hfound [Hnth _]]]]].
  - rewrite Hnone in Hrow. cbn in Hrow. injection Hrow as <-. left. reflexivity.
  - rewrite Hfound in Hrow. cbn [header_row] in Hrow.
    assert (Hhk : h = Z.of_nat k) by (injection Hrow as <-; lia).
    right. rewrite nth_error_firstn in Hnth.
    destruct (k <? 25)%nat eqn:Ek; [| discriminate Hnth]. apply Nat.ltb_lt in Ek.
    assert (k < List.length raw_data)%nat by (apply nth_error_Some; congruence).
    lia.
Qed.


(** X5: detection never returns the registry's [GENERIC] entry as it
    stands: the format it returns always has a key, an integer header row
    ([-1], the fixed 2 or 16 of a registered profile, or an index below 25
    within the grid) and a list of account rows, all below 15, so neither the
    text header ['auto-detect'] nor a missing [account_info_rows] reaches the
    extractors. *)
Theorem detected_format_is_complete (raw_data : Grid) :
  exists k h rows,
    key (_detect_format raw_data) = Some k /\
    header_row (_detect_format raw_data) = HInt h /\
    account_info_rows (_detect_format raw_data) = Some rows /\
    (h = -1 \/ h = 2 \/ h = 16 \/ 0 <= h < Z.min 25 (Z.of_nat (List.length raw_data))) /\
    Forall (fun r => (r < 15)%nat) rows /\
    In (name (_detect_format raw_data))
       ["FCMB Statement Format 1"; "GTB ODS Statement Format"; "Generic Bank Format"].
Proof.
  unfold _detect_format.
  destruct (first_match bank_formats (search_text raw_data)) as [profile |] eqn:Ef.
  - apply first_match_registered in Ef. destruct Ef as [k [f [Hin [Hk [_ ->]]]]].
    destruct (registered_profiles k f Hin Hk) as [-> | ->].
    + exists k, 16, [3; 4; 5; 6; 7; 8; 12; 13; 14]%nat. cbn.
      repeat split; try tauto. repeat constructor.
    + exists k, 2, [0; 1]%nat. cbn. repeat split; try tauto. repeat constructor.
  - exists "GENERIC", (fst (find_header (firstn 25 raw_data) 0)), (seq 0 5).
    assert (Hrow : header_row (_detect_generic_format raw_data)
                   = HInt (fst (find_header (firstn 25 raw_data) 0))).
    { unfold _detect_generic_format.
      destruct (find_header (firstn 25 raw_data) 0) as [h m]. reflexivity. }
    pose proof (generic_header_in_grid raw_data _ Hrow) as Hh.
    unfold _detect_generic_format in Hrow |- *.
    destruct (find_header (firstn 25 raw_data) 0) as [h m]. cbn [fst] in *.
    cbn [key header_row account_info_rows name].
    repeat split.
    + destruct Hh as [-> | Hh]; [left; reflexivity | right; right; right; exact Hh].
    + repeat constructor.
    + cbn. tauto.
Qed.

(** ** Account information *)

Lemma extract_number_number (text : string) (a : AccountInfo) :
  account_number (extract_number text a)
  = or_else (account_number a) (Re.re_search account_pattern text).
Proof.
  unfold extract_number. destruct a as [number name opening closing]. cbn [account_number].
  destruct (Re.re_search account_pattern text), number; reflexivity.
Qed.

Lemma extract_name_name (text : string) (a : AccountInfo) :
  account_name (extract_name text a)
  = or_else (account_name a)
            (match Re.re_search name_pattern text with
             | Some matched =>
                 if Text.contains "ACCOUNT" (strip matched) then None
                 else Some (strip matched)
             | None => None
             end).
Proof.
  unfold extract_name. destruct a as [number name opening closing]. cbn [account_name].
  destruct (Re.re_search name_pattern text) as [matched |], name; try reflexivity.
  destruct (Text.contains "ACCOUNT" (strip matched)); reflexivity.
Qed.

Lemma account_row_identity (raw_data : Grid) (a a' : AccountInfo) (r : nat) :
  account_row raw_data a r = Ok a' ->
  account_number a' = or_else (account_number a) (number_in_row raw_data r) /\
  account_name a' = or_else (account_name a) (name_in_row raw_data r).
Proof.
  unfold account_row, number_in_row, name_in_row.
  destruct (nth_error raw_data r) as [[| c cs] |].
  - intros H. injection H as <-. destruct (account_number a), (account_name a); split; reflexivity.
  - fold (row_text (c :: cs)). generalize (row_text (c :: cs)) as text. intros text H.
    apply balance_loop_keeps in H. destruct H as [-> ->].
    rewrite extract_name_number, extract_number_number, extract_name_name,
      extract_number_name.
    split; reflexivity.
  - intros H. injection H as <-. destruct (account_number a), (account_name a); split; reflexivity.
Qed.

Lemma account_rows_identity (raw_data : Grid) (rows : list nat) (a a' : AccountInfo) :
  account_rows raw_data rows a = Ok a' ->
  account_number a'
  = or_else (account_number a) (first_some (map (number_in_row raw_data) rows)) /\
  account_name a'
  = or_else (account_name a) (first_some (map (name_in_row raw_data) rows)).
Proof.
  revert a. induction rows as [| r rest IH]; intros a; cbn [account_rows map first_some].
  - intros H. injection H as <-. destruct (account_number a), (account_name a); split; reflexivity.
  - destruct (account_row raw_data a r) as [a1 |] eqn:E1; cbn [bind]; [| discriminate].
    intros H. apply IH in H. destruct H as [-> ->].
    apply account_row_identity in E1. destruct E1 as [-> ->].
    destruct (account_number a), (account_name a), (number_in_row raw_data r),
      (name_in_row raw_data r); split; reflexivity.
Qed.

(** X6: the account number and the account name are those of the first
    listed row that offers one, in the order of [account_info_rows]: a later
    row never replaces them, and the balance cells play no part.  A row whose
    leftmost name candidate contains [ACCOUNT] offers no name, even when a
    later candidate of the same row would do. *)
Theorem account_identity_first_match
        (raw_data : Grid) (format_info : FormatInfo) (rows : list nat) (a : AccountInfo) :
  account_info_rows format_info = Some rows ->
  _extract_account_info raw_data format_info = Ok a ->
  account_number a = first_some (map (number_in_row raw_data) rows) /\
  account_name a = first_some (map (name_in_row raw_data) rows).
Proof.
  unfold _extract_account_info. intros -> H.
  apply account_rows_identity in H. exact H.
Qed.

Lemma account_identity_first_match_witness :
  account_number (account_info sample_result)
  = first_some (map (number_in_row sample_grid) (seq 0 5)) /\
  account_name (account_info sample_result)
  = first_some (map (name_in_row sample_grid) (seq 0 5)).
Proof.
  apply (account_identity_first_match sample_grid (_detect_format sample_grid)).
  - vm_compute. reflexivity.
  - vm_compute. reflexivity.
Defined.








Lemma account_rows_same_rows (raw_data raw_data' : Grid) (rows : list nat) (a : AccountInfo) :
  (forall r, In r rows -> nth_error raw_data r = nth_error raw_data' r) ->
  account_rows raw_data rows a = account_rows raw_data' rows a.
Proof.
  revert a. induction rows as [| r rest IH]; intros a H; cbn [account_rows]; [reflexivity |].
  unfold account_row. rewrite (H r (or_introl eq_refl)).
  destruct (match nth_error raw_data' r with
            | Some (_ :: _ as row) => _
            | _ => Ok a
            end) as [a1 |]; cbn [bind]; [| reflexivity].
  apply IH. intros r' Hr. apply H. right. exact Hr.
Qed.

(** X8: account-information extraction reads the rows listed in
    [account_info_rows] and no others: two grids that agree on those rows
    give the same account information, or the same error. *)
Theorem account_info_reads_listed_rows
        (raw_data raw_data' : Grid) (format_info : FormatInfo) :
  (forall rows r, account_info_rows format_info = Some rows -> In r rows ->
                  nth_error raw_data r = nth_error raw_data' r) ->
  _extract_account_info raw_data format_info = _extract_account_info raw_data' format_info.
Proof.
  intros H. unfold _extract_account_info.
  destruct (account_info_rows format_info) as [rows |]; [| reflexivity].
  apply account_rows_same_rows. intros r Hr. apply (H rows); [reflexivity | exact Hr].
Qed.

Lemma account_info_reads_listed_rows_witness :
  _extract_account_info sample_grid (_detect_format sample_grid)
  = _extract_account_info (firstn 5 sample_grid) (_detect_format sample_grid).
Proof.
  apply account_info_reads_listed_rows.
  intros rows r H Hr. vm_compute in H. injection H as <-.
  repeat (destruct Hr as [<- | Hr]; [reflexivity |]). destruct Hr.
Defined.

(** ** Transaction extraction *)

Lemma last_entry_nil (k : string) (headers : list Cell) : last_entry k headers [] = None.
Proof. destruct headers; reflexivity. Qed.

Lemma build_transaction_get (headers row : list Cell) (j : nat) (acc : RawTransaction)
      (k : string) :
  dget k (build_transaction headers row j acc)
  = or_else (last_entry k headers (skipn j row)) (dget k acc).
Proof.
  revert j acc. induction headers as [| header rest IH]; intros j acc;
    cbn [build_transaction].
  - destruct (skipn j row); reflexivity.
  - rewrite IH. destruct (nth_error row j) as [cell |] eqn:En.
    + rewrite (skipn_nth_error row j cell En). cbn [last_entry].
      destruct (last_entry k rest (skipn (S j) row)); [reflexivity |]. cbn [or_else].
      destruct (truthy header); [| reflexivity].
      destruct (not_none cell); [| reflexivity]. cbn [andb].
      destruct (String.eqb (str_cell header) k) eqn:E.
      * apply String.eqb_eq in E. subst k. apply dget_dset_same.
      * apply String.eqb_neq in E. cbn [or_else].
        apply dget_dset_other. intros ->. apply E. reflexivity.
    + apply nth_error_None in En.
      rewrite (skipn_all2 row) by lia. rewrite (skipn_all2 row) by exact En.
      rewrite !last_entry_nil. destruct (truthy header); reflexivity.
Qed.

(** X9: a raw transaction pairs each header text with the cell of its
    column; where several columns carry the same header text, the last one
    with a present cell wins, and a header that is absent or empty, or a
    column beyond the row, gives no entry. *)
Theorem raw_transaction_last_column_wins (headers row : list Cell) (k : string) :
  dget k (row_transaction headers row) = last_entry k headers row.
Proof.
  unfold row_transaction. rewrite build_transaction_get. cbn [skipn dget].
  destruct (last_entry k headers row); reflexivity.
Qed.

Lemma filter_ext_in {A : Type} (f g : A -> bool) (l : list A) :
  (forall a, In a l -> f a = g a) -> filter f l = filter g l.
Proof.
  induction l as [| a t IH]; intros H; cbn [filter]; [reflexivity |].
  rewrite (H a (or_introl eq_refl)), IH; [reflexivity |].
  intros b Hb. apply H. right. exact Hb.
Qed.

Lemma qualifying_transaction_row (headers row : list Cell) :
  qualifying headers row = transaction_row headers row.
Proof.
  unfold qualifying, transaction_row.
  destruct (has_date_or_amount row) eqn:E; [| rewrite andb_false_r; reflexivity].
  destruct (has_date_or_amount_row row E) as [_ [_ ->]]. reflexivity.
Qed.

(** X10: the outcome of transaction extraction by the header index of the
    format: [-1] raises the header error, an index at or beyond the end of
    the grid raises [IndexError], and an index within the grid gives, in row
    order, the transaction of every row below the header that holds a date or
    an amount and gives at least one entry.  The blank-row test of the
    extractor excludes nothing that the date-or-amount test lets through. *)
Theorem extract_transactions_outcome
        (raw_data : Grid) (format_info : FormatInfo) (h : Z) :
  header_row format_info = HInt h ->
  (h = -1 ->
   _extract_transactions raw_data format_info = Raise (ValueError header_not_found))
  /\ (Z.of_nat (List.length raw_data) <= h ->
      _extract_transactions raw_data format_info
      = Raise (IndexError "list index out of range"))
  /\ (forall headers, 0 <= h -> nth_error raw_data (Z.to_nat h) = Some headers ->
        _extract_transactions raw_data format_info
        = Ok (map (row_transaction headers)
                  (filter (transaction_row headers) (skipn (S (Z.to_nat h)) raw_data)))).
Proof.
  intros Hrow. repeat split.
  - intros ->. unfold _extract_transactions. rewrite Hrow. reflexivity.
  - intros Hlen. unfold _extract_transactions. rewrite Hrow.
    assert (Hneq : (h =? -1) = false) by (apply Z.eqb_neq; lia).
    rewrite Hneq, py_index_out_of_range by lia. reflexivity.
  - intros headers Hh Hnth. rewrite (extract_transactions_spec _ _ _ _ Hrow Hh Hnth).
    do 2 f_equal. apply filter_ext_in. intros row _. apply qualifying_transaction_row.
Qed.

Lemma extract_transactions_outcome_witness :
  (2 = -1 ->
   _extract_transactions sample_grid (_detect_format sample_grid)
   = Raise (ValueError header_not_found))
  /\ (Z.of_nat (List.length sample_grid) <= 2 ->
      _extract_transactions sample_grid (_detect_format sample_grid)
      = Raise (IndexError "list index out of range"))
  /\ (forall headers, 0 <= 2 -> nth_error sample_grid (Z.to_nat 2) = Some headers ->
        _extract_transactions sample_grid (_detect_format sample_grid)
        = Ok (map (row_transaction headers)
                  (filter (transaction_row headers) (skipn (S (Z.to_nat 2)) sample_grid)))).
Proof.
  apply (extract_transactions_outcome sample_grid (_detect_format sample_grid) 2).
  vm_compute. reflexivity.
Defined.

Lemma build_transaction_present (headers row : list Cell) (j : nat) (acc : RawTransaction) :
  Forall (fun item => not_none (snd item) = true) acc ->
  NoDup (map fst acc) ->
  Forall (fun item => not_none (snd item) = true) (build_transaction headers row j acc)
  /\ NoDup (map fst (build_transaction headers row j acc)).
Proof.
  revert j acc. induction headers as [| header rest IH]; intros j acc Hacc Hkeys;
    cbn [build_transaction]; [split; assumption |].
  apply IH.
  - destruct (truthy header); [| exact Hacc].
    destruct (nth_error row j) as [cell |]; [| exact Hacc].
    destruct (not_none cell) eqn:E; [| exact Hacc].
    apply Forall_dset; [exact Hacc | exact E].
  - destruct (truthy header); [| exact Hkeys].
    destruct (nth_error row j) as [cell |]; [| exact Hkeys].
    destruct (not_none cell); [| exact Hkeys].
    apply NoDup_keys_dset. exact Hkeys.
Qed.

Lemma scan_rows_shape (headers : list Cell) (rows : Grid) :
  Forall (fun t : RawTransaction =>
            is_empty t = false /\ NoDup (map fst t) /\
            Forall (fun item => not_none (snd item) = true) t)
         (scan_rows headers rows []).
Proof.
  rewrite scan_rows_spec. cbn [app]. apply Forall_forall. intros t Ht.
  apply in_map_iff in Ht. destruct Ht as [row [<- Hrow]].
  apply filter_In in Hrow. destruct Hrow as [_ Hq].
  unfold qualifying in Hq. apply andb_prop in Hq. destruct Hq as [_ Hne].
  split; [destruct (is_empty (row_transaction headers row)); [discriminate Hne | reflexivity] |].
  unfold row_transaction.
  destruct (build_transaction_present headers row 0 []) as [Hp Hk];
    [constructor | constructor |]. split; assumption.
Qed.

(** X11: every raw transaction the extractor returns has at least one entry,
    has each key once, and holds no absent cell, whatever the format and the
    grid. *)
Theorem extracted_transactions_shape
        (raw_data : Grid) (format_info : FormatInfo) (transactions : list RawTransaction) :
  _extract_transactions raw_data format_info = Ok transactions ->
  Forall (fun t : RawTransaction =>
            is_empty t = false /\ NoDup (map fst t) /\
            Forall (fun item => not_none (snd item) = true) t)
         transactions.
Proof.
  unfold _extract_transactions. destruct (header_row format_info) as [i | s]; [| discriminate].
  destruct (i =? -1); [discriminate |].
  destruct (py_index raw_data i) as [headers |]; cbn [bind]; [| discriminate].
  destruct (map_result _ _) as [rows |]; cbn [bind]; [| discriminate].
  intros H. injection H as <-. apply scan_rows_shape.
Qed.

Lemma extracted_transactions_shape_witness :
  Forall (fun t : RawTransaction =>
            is_empty t = false /\ NoDup (map fst t) /\
            Forall (fun item => not_none (snd item) = true) t)
         [ [("Date", CStr "2024-03-05"); ("Debit", CFloat 500%float)] ].
Proof.
  apply (extracted_transactions_shape
           [[CStr "Date"; CStr "Narration"; CStr "Debit"];
            [CStr "2024-03-05"; CNone; CFloat 500%float]]
           (mk_format None "Sample" [] (HInt 0) None [])).
  vm_compute. reflexivity.
Defined.

(** ** Cell classifier *)





(** X13: the amount test and the amount parser, which repeat the same
    cleaning and conversion, agree: a cell other than an integer is an
    amount exactly when it parses to a number different from zero.  So text
    that does not parse, and text that parses to zero, is not an amount. *)
Theorem amount_test_agrees_with_parser (value : Cell) (x : float) :
  (forall n, value <> CInt n) ->
  _parse_amount value = Ok x ->
  _is_amount value = negb (PrimFloat.eqb x PrimFloat.zero).
Proof.
  intros Hint. destruct value as [| n | y | s | d]; cbn [_parse_amount _is_amount].
  - intros H. injection H as <-. reflexivity.
  - contradiction (Hint n). reflexivity.
  - intros H. injection H as <-. reflexivity.
  - destruct (PyFloat.float_of_str (clean_amount s)) as [y |]; intros H; injection H as <-;
      reflexivity.
  - intros H. injection H as <-. reflexivity.
Qed.

Lemma amount_test_agrees_with_parser_witness :
  _is_amount (CStr "1,234.50") = negb (PrimFloat.eqb 1234.5%float PrimFloat.zero).
Proof.
  apply amount_test_agrees_with_parser.
  - discriminate.
  - vm_compute. reflexivity.
Defined.

Lemma nearest_below_range (n : Z) :
  0 < n < 2 ^ 1023 -> exists x, PyFloat.nearest n 1 = Some x.
Proof.
  intros Hn. unfold PyFloat.nearest, PyFloat.nearest_parts.
  assert (Hlog : 0 <= Z.log2 n < 1023).
  { split; [apply Z.log2_nonneg | apply Z.log2_lt_pow2; lia]. }
  change (Z.log2 1) with 0.
  destruct (PyFloat.scale2 n 1 (Z.log2 n - 0 - 53)) as [n1 d1].
  set (e2 := if 2 ^ 53 <=? n1 / d1 then Z.log2 n - 0 - 53 + 1 else Z.log2 n - 0 - 53).
  assert (He2 : e2 <= 970) by (unfold e2; destruct (2 ^ 53 <=? n1 / d1); lia).
  destruct (PyFloat.scale2 n 1 (Z.max e2 (-1074))) as [n2 d2].
  assert (H1 : (971 <? Z.max e2 (-1074)) = false) by (apply Z.ltb_ge; lia).
  assert (H2 : (Z.max e2 (-1074) =? 971) = false) by (apply Z.eqb_neq; lia).
  rewrite H1, H2. cbn [orb andb]. eexists. reflexivity.
Qed.

(** X14: the amount parser raises on one kind of input only: an integer cell
    of magnitude at least 2^1023, for which it raises [OverflowError]; every
    other cell, text that is not a number included, gives a float. *)
Theorem parse_amount_raises_on_huge_integers_only (value : Cell) (e : exn) :
  _parse_amount value = Raise e ->
  e = OverflowError "int too large to convert to float" /\
  exists n, value = CInt n /\ 2 ^ 1023 <= Z.abs n.
Proof.
  intros H. split; [apply (parse_amount_error value e H) |].
  destruct value as [| n | y | s | d]; cbn [_parse_amount] in H; try discriminate H.
  - exists n. split; [reflexivity |].
    unfold PyFloat.float_of_Z in H. destruct (n =? 0) eqn:E0; [discriminate H |].
    apply Z.eqb_neq in E0.
    destruct (Z.lt_ge_cases (Z.abs n) (2 ^ 1023)) as [Hlt | Hge]; [| exact Hge].
    destruct (nearest_below_range (Z.abs n)) as [x Hx]; [lia |].
    rewrite Hx in H. discriminate H.
  - destruct (PyFloat.float_of_str (clean_amount s)); discriminate H.
Qed.

Lemma parse_amount_raises_on_huge_integers_only_witness :
  OverflowError "int too large to convert to float"
  = OverflowError "int too large to convert to float" /\
  exists n, CInt (10 ^ 400) = CInt n /\ 2 ^ 1023 <= Z.abs n.
Proof.
  apply (parse_amount_raises_on_huge_integers_only (CInt (10 ^ 400))).
  vm_compute. reflexivity.
Defined.

(** ** Standardizer *)

Lemma apply_mapping_get to_datetime options (items : dict string)
      (transaction : RawTransaction) (st st' : StandardTransaction) (h : string) :
  apply_mapping to_datetime options items transaction st = Ok st' ->
  match source_value h items transaction with
  | Some value => exists v, convert_value to_datetime options h value = Ok v /\
                            dget h st' = Some v
  | None => dget h st' = dget h st
  end.
Proof.
  revert st. induction items as [| [original standard] rest IH]; intros st;
    cbn [apply_mapping source_value].
  - intros H. injection H as <-. reflexivity.
  - destruct (dget original transaction) as [value |] eqn:Eg.
    2:{ intros H. apply IH in H. destruct (String.eqb standard h);
        destruct (source_value h rest transaction); exact H. }
    destruct (not_none value) eqn:En.
    2:{ intros H. apply IH in H. destruct (String.eqb standard h);
        destruct (source_value h rest transaction); exact H. }
    destruct (convert_value to_datetime options standard value) as [v |] eqn:Ev;
      cbn [bind]; [| discriminate].
    intros H. apply IH in H.
    destruct (source_value h rest transaction) as [later |]; [exact H |].
    cbn [or_else]. rewrite H. destruct (String.eqb standard h) eqn:E.
    + apply String.eqb_eq in E. subst standard. exists v. split; [exact Ev |].
      apply dget_dset_same.
    + apply String.eqb_neq in E. apply dget_dset_other. intros ->. apply E. reflexivity.
Qed.

(** X15: where several source columns are mapped to the same canonical
    field, the field is made from the last of them, in the order of the
    column mapping, that is present in the transaction; a field none of whose
    source columns is present is left to the backfill. *)
Theorem mapped_field_takes_last_source
        (to_datetime : string -> Parsed) (options : Options) (items : dict string)
        (transaction : RawTransaction) (mapped : StandardTransaction) (h : string) :
  apply_mapping to_datetime options items transaction [] = Ok mapped ->
  match source_value h items transaction with
  | Some value => exists v, convert_value to_datetime options h value = Ok v /\
                            dget h mapped = Some v
  | None => dget h mapped = None
  end.
Proof.
  intros H. apply (apply_mapping_get _ _ _ _ _ _ h) in H.
  destruct (source_value h items transaction); exact H.
Qed.

Lemma mapped_field_takes_last_source_witness :
  match source_value "Debit" [("Debit", "Debit"); ("Withdrawal", "Debit")]
                     [("Debit", CInt 10); ("Withdrawal", CInt 20)] with
  | Some value => exists v, convert_value iso_to_datetime no_options "Debit" value = Ok v /\
                            dget "Debit" [("Debit", CStr "20.00")] = Some v
  | None => dget "Debit" [("Debit", CStr "20.00")] = None
  end.
Proof.
  apply (mapped_field_takes_last_source iso_to_datetime no_options
           [("Debit", "Debit"); ("Withdrawal", "Debit")]
           [("Debit", CInt 10); ("Withdrawal", CInt 20)]).
  vm_compute. reflexivity.
Defined.

Lemma handle_debit_credit_split (st : StandardTransaction) (t : RawTransaction) :
  _handle_debit_credit_logic st t = fmap ensure_formatting (single_amount_column st t).
Proof. reflexivity. Qed.

Lemma dset_same {V : Type} (d : dict V) (k : string) (v : V) :
  dget k d = Some v -> dset k v d = d.
Proof.
  induction d as [| [k0 v0] t IH]; simpl; [discriminate |].
  destruct (String.eqb k0 k); intros H.
  - injection H as ->. reflexivity.
  - rewrite (IH H). reflexivity.
Qed.

Lemma ensure_formatting_text (st : StandardTransaction) (debit credit : string) :
  dget "Debit" st = Some (CStr debit) -> dget "Credit" st = Some (CStr credit) ->
  ensure_formatting st = st.
Proof.
  intros Hd Hc. unfold ensure_formatting.
  rewrite (get_truthy_of st "Debit" _ Hd), (get_truthy_of st "Credit" _ Hc).
  cbn [truthy]. rewrite !negb_involutive.
  destruct (String.eqb credit "") eqn:Ec.
  - apply String.eqb_eq in Ec. subst credit.
    rewrite (dset_same st "Credit" (CStr "") Hc).
    destruct (negb (String.eqb debit "") && true);
      rewrite (get_truthy_of st "Credit" _ Hc); reflexivity.
  - rewrite andb_false_r.
    rewrite (get_truthy_of st "Debit" _ Hd), (get_truthy_of st "Credit" _ Hc).
    cbn [truthy]. rewrite Ec, negb_involutive. cbn [negb andb].
    destruct (String.eqb debit "") eqn:Ed; [| reflexivity].
    apply String.eqb_eq in Ed. subst debit. apply dset_same. exact Hd.
Qed.

Lemma amounts_are_text_dset (st : StandardTransaction) (k : string) (v : Cell) :
  amounts_are_text st ->
  (k = "Debit" \/ k = "Credit" -> exists text, v = CStr text) ->
  amounts_are_text (dset k v st).
Proof.
  intros Hst Hv h w Hh Hget.
  destruct (String.eqb k h) eqn:E.
  - apply String.eqb_eq in E. subst k. rewrite dget_dset_same in Hget.
    injection Hget as <-. apply Hv. exact Hh.
  - apply String.eqb_neq in E. rewrite dget_dset_other in Hget by (intros ->; apply E; reflexivity).
    apply (Hst h); assumption.
Qed.

Lemma apply_mapping_amounts_text to_datetime options (items : dict string)
      (transaction : RawTransaction) (st st' : StandardTransaction) :
  amounts_are_text st ->
  apply_mapping to_datetime options items transaction st = Ok st' ->
  amounts_are_text st'.
Proof.
  revert st. induction items as [| [original standard] rest IH]; intros st Hst;
    cbn [apply_mapping].
  - intros H. injection H as <-. exact Hst.
  - destruct (dget original transaction) as [value |]; [| apply IH; exact Hst].
    destruct (not_none value); [| apply IH; exact Hst].
    destruct (convert_value to_datetime options standard value) as [v |] eqn:Ev;
      cbn [bind]; [| discriminate].
    apply IH. apply amounts_are_text_dset; [exact Hst |].
    intros Hk. apply (convert_value_text to_datetime options standard value v); [| exact Ev].
    destruct Hk as [-> | ->]; reflexivity.
Qed.

Lemma backfill_debit_credit (st : StandardTransaction) :
  amounts_are_text st ->
  exists debit credit,
    dget "Debit" (backfill st) = Some (CStr debit) /\
    dget "Credit" (backfill st) = Some (CStr credit).
Proof.
  intros Hst.
  assert (H : forall h, h = "Debit" \/ h = "Credit" ->
                        exists text, dget h (backfill st) = Some (CStr text)).
  { intros h Hh. rewrite backfill_get. destruct (dget h st) as [v |] eqn:E.
    - destruct (Hst h v Hh E) as [text ->]. exists text. reflexivity.
    - destruct Hh as [-> | ->]; exists ""; reflexivity. }
  destruct (H "Debit" (or_introl eq_refl)) as [debit Hd].
  destruct (H "Credit" (or_intror eq_refl)) as [credit Hc].
  exists debit, credit. split; assumption.
Qed.

Lemma single_amount_column_text (st st' : StandardTransaction) (t : RawTransaction)
      (debit credit : string) :
  dget "Debit" st = Some (CStr debit) -> dget "Credit" st = Some (CStr credit) ->
  single_amount_column st t = Ok st' ->
  exists debit' credit',
    dget "Debit" st' = Some (CStr debit') /\ dget "Credit" st' = Some (CStr credit').
Proof.
  intros Hd Hc. unfold single_amount_column.
  destruct (dget "Amount" t) as [raw_amount |];
    [| intros H; injection H as <-; eauto].
  destruct (_ && _); [| intros H; injection H as <-; eauto].
  destruct (_parse_amount raw_amount) as [amount |]; cbn [bind]; [| discriminate].
  destruct (PrimFloat.ltb amount 0%float); intros H; injection H as <-.
  - eexists _, "". split.
    + rewrite dget_dset_other by discriminate. apply dget_dset_same.
    + apply dget_dset_same.
  - eexists "", _. split.
    + apply dget_dset_same.
    + rewrite dget_dset_other by discriminate. apply dget_dset_same.
Qed.

(** X16: in the standardizer the closing statements of
    [_handle_debit_credit_logic] ("ensure proper formatting") never change a
    transaction: standardizing one is the column mapping, the backfill and
    the single-amount-column step, and nothing more. *)
Theorem ensure_formatting_is_redundant
        (to_datetime : string -> Parsed) (format_info : FormatInfo) (options : Options)
        (transaction : RawTransaction) :
  standardize_one to_datetime format_info options transaction
  = (mapped <- apply_mapping to_datetime options (mapping format_info) transaction [] ;;
     single_amount_column (backfill mapped) transaction).
Proof.
  unfold standardize_one.
  destruct (apply_mapping to_datetime options (mapping format_info) transaction [])
    as [mapped |] eqn:Em; cbn [bind]; [| reflexivity].
  rewrite handle_debit_credit_split.
  destruct (single_amount_column (backfill mapped) transaction) as [st |] eqn:Es;
    [| reflexivity].
  unfold fmap. cbn [bind]. f_equal.
  assert (Hmapped : amounts_are_text mapped).
  { apply (apply_mapping_amounts_text to_datetime options (mapping format_info) transaction
             [] mapped); [| exact Em].
    intros h v _ H. discriminate H. }
  destruct (backfill_debit_credit mapped Hmapped) as [debit [credit [Hd Hc]]].
  destruct (single_amount_column_text _ _ _ _ _ Hd Hc Es) as [debit' [credit' [Hd' Hc']]].
  apply (ensure_formatting_text st debit' credit'); assumption.
Qed.










Lemma same_keys_dmem {V : Type} (d1 d2 : dict V) (k : string) :
  map fst d1 = map fst d2 -> dmem k d1 = dmem k d2.
Proof.
  intros H. pose proof (dmem_keys d1 k) as H1. pose proof (dmem_keys d2 k) as H2.
  rewrite H in H1.
  destruct (dmem k d1), (dmem k d2); try reflexivity.
  - symmetry. apply H2. apply H1. reflexivity.
  - apply H1. apply H2. reflexivity.
Qed.

Lemma same_but_dates_dset (st1 st2 : StandardTransaction) (k : string) (v1 v2 : Cell) :
  same_but_dates st1 st2 ->
  (Text.contains "Date" k = false -> v1 = v2) ->
  same_but_dates (dset k v1 st1) (dset k v2 st2).
Proof.
  intros [Hkeys Hvals] Hv. split.
  - rewrite !keys_dset, (same_keys_dmem st1 st2 k Hkeys), Hkeys. reflexivity.
  - intros h Hh. destruct (String.eqb k h) eqn:E.
    + apply String.eqb_eq in E. subst k. rewrite !dget_dset_same, (Hv Hh). reflexivity.
    + apply String.eqb_neq in E.
      rewrite !dget_dset_other by (intros ->; apply E; reflexivity).
      apply Hvals. exact Hh.
Qed.

Lemma same_but_dates_truthy (st1 st2 : StandardTransaction) (h : string) :
  same_but_dates st1 st2 -> Text.contains "Date" h = false ->
  get_truthy h st1 = get_truthy h st2.
Proof.
  intros [_ Hvals] Hh. unfold get_truthy. rewrite (Hvals h Hh). reflexivity.
Qed.

Lemma convert_value_agree td1 td2 o1 o2 (standard : string) (value : Cell) :
  agree (fun v1 v2 => Text.contains "Date" standard = false -> v1 = v2)
        (convert_value td1 o1 standard value) (convert_value td2 o2 standard value).
Proof.
  unfold convert_value. destruct (Text.contains "Date" standard).
  - cbn. discriminate.
  - destruct (is_amount_field standard); [| cbn; reflexivity].
    destruct (_standardize_amount value); cbn; reflexivity.
Qed.

Lemma apply_mapping_agree td1 td2 o1 o2 (items : dict string) (transaction : RawTransaction)
      (st1 st2 : StandardTransaction) :
  same_but_dates st1 st2 ->
  agree same_but_dates (apply_mapping td1 o1 items transaction st1)
        (apply_mapping td2 o2 items transaction st2).
Proof.
  revert st1 st2. induction items as [| [original standard] rest IH]; intros st1 st2 Hst;
    cbn [apply_mapping]; [exact Hst |].
  destruct (dget original transaction) as [value |]; [| apply IH; exact Hst].
  destruct (not_none value); [| apply IH; exact Hst].
  pose proof (convert_value_agree td1 td2 o1 o2 standard value) as Hv.
  destruct (convert_value td1 o1 standard value) as [v1 | e1],
           (convert_value td2 o2 standard value) as [v2 | e2];
    cbn [agree bind] in Hv |- *; try contradiction; [| exact Hv].
  apply IH. apply same_but_dates_dset; assumption.
Qed.

Lemma backfill_agree (st1 st2 : StandardTransaction) :
  same_but_dates st1 st2 -> same_but_dates (backfill st1) (backfill st2).
Proof.
  unfold backfill. generalize standard_headers as hs. intros hs. revert st1 st2.
  induction hs as [| h t IH]; intros st1 st2 Hst; cbn [fold_left]; [exact Hst |].
  apply IH. rewrite (same_keys_dmem st1 st2 h (proj1 Hst)).
  destruct (dmem h st2); [exact Hst |].
  apply same_but_dates_dset; [exact Hst | reflexivity].
Qed.

Lemma blank_when_agree (st1 st2 : StandardTransaction) (set_key clear_key : string) :
  same_but_dates st1 st2 ->
  Text.contains "Date" set_key = false -> Text.contains "Date" clear_key = false ->
  same_but_dates
    (if get_truthy set_key st1 && negb (get_truthy clear_key st1)
     then dset clear_key (CStr "") st1 else st1)
    (if get_truthy set_key st2 && negb (get_truthy clear_key st2)
     then dset clear_key (CStr "") st2 else st2).
Proof.
  intros Hst Hs Hc.
  rewrite (same_but_dates_truthy st1 st2 set_key Hst Hs),
          (same_but_dates_truthy st1 st2 clear_key Hst Hc).
  destruct (_ && _); [| exact Hst].
  apply same_but_dates_dset; [exact Hst | reflexivity].
Qed.

Lemma ensure_formatting_agree (st1 st2 : StandardTransaction) :
  same_but_dates st1 st2 -> same_but_dates (ensure_formatting st1) (ensure_formatting st2).
Proof.
  intros Hst. unfold ensure_formatting. cbv zeta.
  apply (blank_when_agree _ _ "Credit" "Debit"); [| reflexivity | reflexivity].
  apply (blank_when_agree _ _ "Debit" "Credit"); [exact Hst | reflexivity | reflexivity].
Qed.

Lemma handle_debit_credit_agree (st1 st2 : StandardTransaction) (t : RawTransaction) :
  same_but_dates st1 st2 ->
  agree same_but_dates (_handle_debit_credit_logic st1 t) (_handle_debit_credit_logic st2 t).
Proof.
  intros Hst. rewrite !handle_debit_credit_split. unfold single_amount_column.
  rewrite (same_but_dates_truthy st1 st2 "Debit" Hst eq_refl),
          (same_but_dates_truthy st1 st2 "Credit" Hst eq_refl).
  destruct (dget "Amount" t) as [raw_amount |];
    [| cbn; apply ensure_formatting_agree; exact Hst].
  destruct (_ && _); [| cbn; apply ensure_formatting_agree; exact Hst].
  destruct (_parse_amount raw_amount) as [amount |]; [| cbn; reflexivity].
  cbn [bind]. destruct (PrimFloat.ltb amount 0%float); cbn;
    apply ensure_formatting_agree; repeat apply same_but_dates_dset;
    try exact Hst; reflexivity.
Qed.

Lemma standardize_one_agree td1 td2 format_info o1 o2 (transaction : RawTransaction) :
  agree same_but_dates (standardize_one td1 format_info o1 transaction)
        (standardize_one td2 format_info o2 transaction).
Proof.
  unfold standardize_one.
  assert (Hnil : same_but_dates [] []) by (split; reflexivity).
  pose proof (apply_mapping_agree td1 td2 o1 o2 (mapping format_info) transaction [] [] Hnil)
    as Hm.
  destruct (apply_mapping td1 o1 (mapping format_info) transaction []) as [m1 | e1],
           (apply_mapping td2 o2 (mapping format_info) transaction []) as [m2 | e2];
    cbn [agree bind] in Hm |- *; try contradiction; [| exact Hm].
  apply handle_debit_credit_agree. apply backfill_agree. exact Hm.
Qed.

Lemma map_result_agree {A B : Type} (R : B -> B -> Prop) (f g : A -> result B) (l : list A) :
  (forall a, agree R (f a) (g a)) ->
  agree (Forall2 R) (map_result f l) (map_result g l).
Proof.
  intros Hfg. induction l as [| a t IH]; cbn [map_result]; [constructor |].
  specialize (Hfg a).
  destruct (f a) as [b1 | e1], (g a) as [b2 | e2]; cbn [agree bind] in Hfg |- *;
    try contradiction; [| exact Hfg].
  destruct (map_result f t) as [bs1 | e1], (map_result g t) as [bs2 | e2];
    cbn [agree bind] in IH |- *; try contradiction; [| exact IH].
  constructor; assumption.
Qed.

Lemma Forall2_length_eq {A B : Type} (R : A -> B -> Prop) (l : list A) (l' : list B) :
  Forall2 R l l' -> List.length l = List.length l'.
Proof. induction 1; cbn; congruence. Qed.

(** X18: the options and the date parser change nothing but the text of the
    date fields: with any two option sets and any two date parsers the
    transform of a grid fails with the same message, or succeeds with the
    same account information, format name, record count and metadata, and
    with transactions that have the same keys in the same order and the same
    value in every field whose name does not contain [Date]. *)
Theorem options_affect_only_dates
        (to_datetime1 to_datetime2 : string -> Parsed) (file_name now : string)
        (raw_data : Grid) (options1 options2 : Options) :
  match transform_statement to_datetime1 file_name now raw_data options1,
        transform_statement to_datetime2 file_name now raw_data options2 with
  | Success r1, Success r2 =>
      account_info r1 = account_info r2 /\
      original_format r1 = original_format r2 /\
      records_processed r1 = records_processed r2 /\
      metadata r1 = metadata r2 /\
      Forall2 same_but_dates (transactions r1) (transactions r2)
  | Failure error1 file1, Failure error2 file2 => error1 = error2 /\ file1 = file2
  | _, _ => False
  end.
Proof.
  unfold transform_statement, transform_body.
  destruct (_extract_account_info raw_data (_detect_format raw_data)) as [a | e];
    cbn [bind]; [| split; reflexivity].
  destruct (_extract_transactions raw_data (_detect_format raw_data)) as [ts | e];
    cbn [bind]; [| split; reflexivity].
  unfold _standardize_transactions.
  pose proof (map_result_agree same_but_dates
                (standardize_one to_datetime1 (_detect_format raw_data) options1)
                (standardize_one to_datetime2 (_detect_format raw_data) options2) ts
                (standardize_one_agree _ _ _ _ _)) as H.
  destruct (map_result (standardize_one to_datetime1 _ options1) ts) as [s1 | e1],
           (map_result (standardize_one to_datetime2 _ options2) ts) as [s2 | e2];
    cbn [agree bind] in H |- *; try contradiction.
  - cbn. rewrite (Forall2_length_eq _ _ _ H). repeat split. exact H.
  - subst e2. split; reflexivity.
Qed.

(** ** Output projector, file reader and web application *)

Lemma transform_success_parts to_datetime file_name now raw_data options r :
  transform_statement to_datetime file_name now raw_data options = Success r ->
  records_processed r = Z.of_nat (List.length (transactions r)) /\
  original_format r = name (_detect_format raw_data) /\
  metadata r = mk_metadata file_name now standard_headers.
Proof.
  unfold transform_statement.
  destruct (transform_body to_datetime file_name now raw_data options) as [r' |] eqn:E;
    [| discriminate].
  intros H. injection H as <-. unfold transform_body in E.
  destruct (_extract_account_info _ _); cbn [bind] in E; [| discriminate].
  destruct (_extract_transactions _ _); cbn [bind] in E; [| discriminate].
  destruct (_standardize_transactions _ _ _ _); cbn [bind] in E; [| discriminate].
  injection E as <-. repeat split.
Qed.

Lemma frame_value_get (record : StandardTransaction) (h : string) :
  dmem h record = true -> Some (frame_value record h) = dget h record.
Proof.
  unfold dmem, frame_value. destruct (dget h record); [reflexivity | discriminate].
Qed.

(** X19: what is written for a successful transform with at least one
    transaction, under any options: the Transactions sheet has the seven
    canonical columns and one row per transaction, in order, each row
    holding the seven values of its transaction (no filler); their number is
    the [Records Processed] figure; and the Metadata sheet is written exactly
    when it is requested and the account information is not empty. *)
Theorem workbook_of_transform
        (to_datetime : string -> Parsed) (file_name now : string) (raw_data : Grid)
        (options generate_options : Options) (r : Transformed) :
  transform_statement to_datetime file_name now raw_data options = Success r ->
  transactions r <> [] ->
  exists rows,
    generate_standardized_file r generate_options
    = Ok (mk_workbook (standard_headers, rows)
            (if metadata_requested generate_options && account_nonempty (account_info r)
             then Some (metadata_rows r) else None))
    /\ Z.of_nat (List.length rows) = records_processed r
    /\ Forall2 (fun record row =>
                  map Some row = map (fun h => dget h record) standard_headers)
               (transactions r) rows.
Proof.
  intros H Hne.
  pose proof (transformed_records_complete _ _ _ _ _ _ H) as Hall.
  exists (map (fun record => map (frame_value record) standard_headers) (transactions r)).
  split; [| split].
  - unfold generate_standardized_file.
    rewrite (transactions_frame_ok _ Hne Hall). reflexivity.
  - rewrite length_map. symmetry. apply (transform_success_parts _ _ _ _ _ _ H).
  - clear Hne H. induction (transactions r) as [| record rest IH]; [constructor |].
    cbn [map]. constructor.
    + rewrite map_map. apply map_ext_in. intros h Hh. apply frame_value_get.
      apply Hall; [left; reflexivity | exact Hh].
    + apply IH. intros rec h Hrec. apply Hall. right. exact Hrec.
Qed.

Lemma workbook_of_transform_witness :
  exists rows,
    generate_standardized_file sample_result (mk_options None (Some false))
    = Ok (mk_workbook (standard_headers, rows)
            (if metadata_requested (mk_options None (Some false))
                && account_nonempty (account_info sample_result)
             then Some (metadata_rows sample_result) else None))
    /\ Z.of_nat (List.length rows) = records_processed sample_result
    /\ Forall2 (fun record row =>
                  map Some row = map (fun h => dget h record) standard_headers)
               (transactions sample_result) rows.
Proof.
  apply (workbook_of_transform iso_to_datetime "statement.xlsx" "2024-01-01T00:00:00"
           sample_grid no_options).
  - vm_compute. reflexivity.
  - discriminate.
Defined.



(** X21: through the web application the metadata sheet is opt-in: the sheet
    is written only when the form field [include_metadata] reads [true] in
    some letter case (and the account information is not empty); a request
    without the field writes none, although [generate_standardized_file]
    itself writes it by default.  A request without [date_format] asks for
    DD/MM/YYYY. *)
Theorem api_metadata_is_opt_in (form : dict string) (r : Transformed) (workbook : Workbook) :
  generate_standardized_file r (request_options form) = Ok workbook ->
  (metadata_sheet workbook
   = if String.eqb (Text.lower (form_get form "include_metadata" "false")) "true"
        && account_nonempty (account_info r)
     then Some (metadata_rows r) else None)
  /\ (dget "include_metadata" form = None -> metadata_sheet workbook = None)
  /\ (dget "date_format" form = None ->
      date_format (request_options form) = Some "DD/MM/YYYY").
Proof.
  unfold generate_standardized_file.
  destruct (transactions_frame (transactions r)) as [frame |]; cbn [bind]; [| discriminate].
  intros H. injection H as <-. cbn [metadata_sheet]. split; [reflexivity |]. split.
  - intros Hnone. unfold request_options, metadata_requested, form_get. cbn [include_metadata].
    rewrite Hnone. reflexivity.
  - intros Hnone. unfold request_options, form_get. cbn [date_format]. rewrite Hnone.
    reflexivity.
Qed.

Lemma api_metadata_is_opt_in_witness :
  (metadata_sheet (mk_workbook
                     (standard_headers,
                      map (fun record => map (frame_value record) standard_headers)
                          (transactions sample_result))
                     None)
   = if String.eqb (Text.lower (form_get [("date_format", "YYYY-MM-DD")]
                                         "include_metadata" "false")) "true"
        && account_nonempty (account_info sample_result)
     then Some (metadata_rows sample_result) else None)
  /\ (dget "include_metadata" [("date_format", "YYYY-MM-DD")] = None ->
      metadata_sheet (mk_workbook
                        (standard_headers,
                         map (fun record => map (frame_value record) standard_headers)
                             (transactions sample_result))
                        None) = None)
  /\ (dget "date_format" [("date_format", "YYYY-MM-DD")] = None ->
      date_format (request_options [("date_format", "YYYY-MM-DD")]) = Some "DD/MM/YYYY").
Proof.
  apply (api_metadata_is_opt_in [("date_format", "YYYY-MM-DD")] sample_result).
  vm_compute. reflexivity.
Defined.



